(** * critter_lunar_cycle: lunar phases, month tables and the phase histogram

    A shallow embedding of [critter_lunar_cycle.py] and the properties its
    specification states about it.

    Conventions of the embedding.
    - A Python [int] is a [Z]; a [str] is a [string]; a [dict] is a [gmap];
      a [defaultdict(int)] is a [gmap string Z] read with default [0].
    - A Python [float] is an exact rational ([Q]): the binary64 rounding of
      [/], [%] and of the literals is not modelled.  Every comparison and
      every branch of the source is kept as written.
    - Exceptions are explicit: a computation returns [Ok v], [Raise e], or
      [OutOfFuel] when a [while] loop is cut off by its fuel.
    - [datetime] and [timedelta] follow the reference implementation of
      Python's [datetime] module (naive values, proleptic Gregorian ordinals,
      years [MINYEAR..MAXYEAR]). *)

From Stdlib Require Import ZArith QArith Qround Lia Lqa List String Ascii.
From stdpp Require Import base gmap strings list fin_maps.

Local Open Scope Z_scope.

(* ===================================================================== *)
(** ** Exceptions and the outcome of a computation                       *)
(* ===================================================================== *)

Module Py.

Inductive exn : Type :=
| ValueError      (* a field out of range for [datetime(...)] or [strptime] *)
| OverflowError   (* date arithmetic leaving [MINYEAR..MAXYEAR] *)
| HTTPError       (* [response.raise_for_status()] *)
| KeyError        (* a JSON object without the key asked for *)
| IndexError.     (* [results[0]] of an empty list *)

Inductive outcome (A : Type) : Type :=
| Ok (a : A)
| Raise (e : exn)
| OutOfFuel.

Arguments Ok {A} a.
Arguments Raise {A} e.
Arguments OutOfFuel {A}.

Definition bind {A B : Type} (c : outcome A) (k : A -> outcome B) : outcome B :=
  match c with
  | Ok a => k a
  | Raise e => Raise e
  | OutOfFuel => OutOfFuel
  end.

Definition returns {A : Type} (c : outcome A) : Prop := exists a, c = Ok a.

Definition is_ok {A : Type} (c : outcome A) : bool :=
  match c with
  | Ok _ => true
  | _ => false
  end.

End Py.

Import Py.

#[global] Instance outcome_ret : MRet outcome := @Ok.
#[global] Instance outcome_bind : MBind outcome := fun A B k c => Py.bind c k.

(* ===================================================================== *)
(** ** The part of Python's [datetime] module the program uses            *)
(* ===================================================================== *)

Module Datetime.

Definition MINYEAR : Z := 1.
Definition MAXYEAR : Z := 9999.
Definition _MAXORDINAL : Z := 3652059.
Definition _DI400Y : Z := 146097.
Definition _DI100Y : Z := 36524.
Definition _DI4Y : Z := 1461.

Definition _DAYS_IN_MONTH : list Z :=
  [-1; 31; 28; 31; 30; 31; 30; 31; 31; 30; 31; 30; 31].
Definition _DAYS_BEFORE_MONTH : list Z :=
  [-1; 0; 31; 59; 90; 120; 151; 181; 212; 243; 273; 304; 334].

(** [tbl[i]] for a table of integers; the callers only index in range. *)
Definition index (tbl : list Z) (i : Z) : Z := nth (Z.to_nat i) tbl (-1).

Definition b2z (b : bool) : Z := if b then 1 else 0.

Definition _is_leap (year : Z) : bool :=
  (year mod 4 =? 0) && (negb (year mod 100 =? 0) || (year mod 400 =? 0)).

Definition _days_before_year (year : Z) : Z :=
  let y := year - 1 in
  y * 365 + y / 4 - y / 100 + y / 400.

Definition _days_in_month (year month : Z) : Z :=
  if (month =? 2) && _is_leap year then 29 else index _DAYS_IN_MONTH month.

Definition _days_before_month (year month : Z) : Z :=
  index _DAYS_BEFORE_MONTH month + b2z ((2 <? month) && _is_leap year).

Definition _ymd2ord (year month day : Z) : Z :=
  _days_before_year year + _days_before_month year month + day.

Definition _ord2ymd (n0 : Z) : Z * Z * Z :=
  let n := n0 - 1 in
  let n400 := n / _DI400Y in
  let n := n mod _DI400Y in
  let year := n400 * 400 + 1 in
  let n100 := n / _DI100Y in
  let n := n mod _DI100Y in
  let n4 := n / _DI4Y in
  let n := n mod _DI4Y in
  let n1 := n / 365 in
  let n := n mod 365 in
  let year := year + (n100 * 100 + n4 * 4 + n1) in
  if (n1 =? 4) || (n100 =? 4) then (year - 1, 12, 31)
  else
    let leapyear := (n1 =? 3) && (negb (n4 =? 24) || (n100 =? 3)) in
    let month := Z.shiftr (n + 50) 5 in
    let preceding := index _DAYS_BEFORE_MONTH month
                     + b2z ((2 <? month) && leapyear) in
    if n <? preceding then
      let month := month - 1 in
      let preceding := preceding
                       - (index _DAYS_IN_MONTH month
                          + b2z ((month =? 2) && leapyear)) in
      (year, month, n - preceding + 1)
    else (year, month, n - preceding + 1).

(** *** timedelta: a normalised triple (days, seconds, microseconds) *)

Record timedelta : Type := Timedelta {
  td_days : Z;
  td_seconds : Z;
  td_microseconds : Z
}.

(** [timedelta(days, seconds, microseconds)] with integer arguments:
    microseconds carry into seconds, seconds into days, and a magnitude
    of more than 999999999 days is refused. *)
Definition timedelta_new (days seconds microseconds : Z) : outcome timedelta :=
  let s := seconds + microseconds / 1000000 in
  let us := microseconds mod 1000000 in
  let d := days + s / 86400 in
  let s := s mod 86400 in
  if 999999999 <? Z.abs d then Raise OverflowError
  else Ok (Timedelta d s us).

(** [timedelta.total_seconds()], a float in Python. *)
Definition total_seconds (t : timedelta) : Q :=
  (inject_Z ((td_days t * 86400 + td_seconds t) * 1000000 + td_microseconds t)
   / inject_Z 1000000)%Q.

(** *** datetime: naive, seven integer fields *)

Record datetime : Type := Datetime {
  year : Z; month : Z; day : Z;
  hour : Z; minute : Z; second : Z; microsecond : Z
}.

Definition in_range (lo x hi : Z) : bool := (lo <=? x) && (x <=? hi).

(** [_check_date_fields] and [_check_time_fields]: the year is checked
    first, then the month, then the day. *)
Definition check_date_fields (y m d : Z) : bool :=
  in_range MINYEAR y MAXYEAR && in_range 1 m 12
  && in_range 1 d (_days_in_month y m).

Definition check_time_fields (h mi s us : Z) : bool :=
  in_range 0 h 23 && in_range 0 mi 59 && in_range 0 s 59
  && in_range 0 us 999999.

(** [datetime(year, month, day, hour, minute, second, microsecond)]. *)
Definition datetime_new (y m d h mi s us : Z) : outcome datetime :=
  if check_date_fields y m d && check_time_fields h mi s us
  then Ok (Datetime y m d h mi s us)
  else Raise ValueError.

(** The values [datetime_new] can build: the representable instants. *)
Definition valid (t : datetime) : bool :=
  check_date_fields (year t) (month t) (day t)
  && check_time_fields (hour t) (minute t) (second t) (microsecond t).

Definition toordinal (t : datetime) : Z := _ymd2ord (year t) (month t) (day t).

(** [t.replace(day=d)] builds a new, checked, datetime. *)
Definition replace_day (t : datetime) (d : Z) : outcome datetime :=
  datetime_new (year t) (month t) d (hour t) (minute t) (second t) (microsecond t).

(** [datetime + timedelta]. *)
Definition add (t : datetime) (dt : timedelta) : outcome datetime :=
  delta ← timedelta_new (toordinal t + td_days dt)
                        (hour t * 3600 + minute t * 60 + second t + td_seconds dt)
                        (microsecond t + td_microseconds dt);
  let h := td_seconds delta / 3600 in
  let rem := td_seconds delta mod 3600 in
  let mi := rem / 60 in
  let s := rem mod 60 in
  if (0 <? td_days delta) && (td_days delta <=? _MAXORDINAL) then
    let '(y, m, d) := _ord2ymd (td_days delta) in
    Ok (Datetime y m d h mi s (td_microseconds delta))
  else Raise OverflowError.

(** [-timedelta], and [datetime - timedelta] as [datetime + (-timedelta)]. *)
Definition neg (dt : timedelta) : outcome timedelta :=
  timedelta_new (- td_days dt) (- td_seconds dt) (- td_microseconds dt).

Definition sub_timedelta (t : datetime) (dt : timedelta) : outcome datetime :=
  n ← neg dt; add t n.

(** [datetime - datetime]. *)
Definition sub (a b : datetime) : outcome timedelta :=
  timedelta_new
    (toordinal a - toordinal b)
    ((second a + minute a * 60 + hour a * 3600)
     - (second b + minute b * 60 + hour b * 3600))
    (microsecond a - microsecond b).

(** [a <= b]: the seven fields compared as a tuple. *)
Fixpoint lex_leb (xs ys : list Z) : bool :=
  match xs, ys with
  | x :: xs', y :: ys' => (x <? y) || ((x =? y) && lex_leb xs' ys')
  | [], _ => true
  | _ :: _, [] => false
  end.

Definition fields (t : datetime) : list Z :=
  [year t; month t; day t; hour t; minute t; second t; microsecond t].

Definition leb (a b : datetime) : bool := lex_leb (fields a) (fields b).

(** [t.strftime("%Y-%m-%d")]: four digits for the year (as the library
    documents [%Y]), two for the month and for the day. *)
Definition digit (n : Z) : ascii := ascii_of_nat (48 + Z.to_nat (n mod 10)).

Definition pad2 (n : Z) : string :=
  String (digit (n / 10)) (String (digit n) EmptyString).

Definition pad4 (n : Z) : string :=
  String (digit (n / 1000)) (String (digit (n / 100)) (pad2 n)).

Definition strftime_ymd (t : datetime) : string :=
  (pad4 (year t) ++ "-" ++ pad2 (month t) ++ "-" ++ pad2 (day t))%string.

End Datetime.

Import Datetime.

(* ===================================================================== *)
(** ** Python floats, read as exact rationals                            *)
(* ===================================================================== *)

Module Float.

Local Open Scope Q_scope.

Definition ltb (x y : Q) : bool := negb (Qle_bool y x).
Definition geb (x y : Q) : bool := Qle_bool y x.

(** C's [fmod]: the remainder of the division truncated towards zero. *)
Definition fmod (x y : Q) : Q :=
  let q := x / y in
  x - inject_Z (Z.quot (Qnum q) (Zpos (Qden q))) * y.

(** [x % y] on floats, for [y] other than zero: [fmod], then moved by [y]
    when its sign differs from the sign of [y]; a zero remainder takes the
    sign of [y]. *)
Definition mod_ (x y : Q) : Q :=
  let m := fmod x y in
  if Qeq_bool m 0 then 0
  else if xorb (ltb y 0) (ltb m 0) then m + y
  else m.

(** [round(x)] to an integer, ties to even. *)
Definition round_half_even (x : Q) : Z :=
  let f := Qfloor x in
  let r := x - inject_Z f in
  if ltb r (1 # 2) then f
  else if ltb (1 # 2) r then (f + 1)%Z
  else if Z.even f then f else (f + 1)%Z.

End Float.

(** [timedelta(days=d)] for a float [d]: rounded to whole microseconds. *)
Definition timedelta_of_days (d : Q) : outcome timedelta :=
  timedelta_new 0 0 (Float.round_half_even (d * inject_Z 86400000000)%Q).

(* ===================================================================== *)
(** ** The program                                                       *)
(* ===================================================================== *)

Definition LUNAR_PHASES : list string :=
  [ "New Moon"; "Waxing Crescent"; "First Quarter"; "Waxing Gibbous";
    "Full Moon"; "Waning Gibbous"; "Last Quarter"; "Waning Crescent" ]%string.

(** *** calculate_lunar_phase *)

Definition known_new_moon : datetime := Datetime 2000 1 6 18 14 0 0.
Definition lunar_cycle_days : Q := 2953058867 # 100000000.

(** Lines 67 and 68: the value of [normalized_phase] for [date]. *)
Definition normalized_phase_at (date : datetime) : outcome Q :=
  delta ← Datetime.sub date known_new_moon;
  let days_since_new_moon := (total_seconds delta / inject_Z 86400)%Q in
  mret (Float.mod_ days_since_new_moon lunar_cycle_days / lunar_cycle_days)%Q.

(** Lines 70 to 84: the chain of comparisons on [normalized_phase]. *)
Definition phase_bucket (normalized_phase : Q) : string :=
  if Float.ltb normalized_phase (3 # 100) || Float.geb normalized_phase (97 # 100)
  then "New Moon"
  else if Float.ltb normalized_phase (25 # 100) then "Waxing Crescent"
  else if Float.ltb normalized_phase (27 # 100) then "First Quarter"
  else if Float.ltb normalized_phase (50 # 100) then "Waxing Gibbous"
  else if Float.ltb normalized_phase (53 # 100) then "Full Moon"
  else if Float.ltb normalized_phase (75 # 100) then "Waning Gibbous"
  else if Float.ltb normalized_phase (77 # 100) then "Last Quarter"
  else "Waning Crescent".

Definition calculate_lunar_phase (date : datetime) : outcome string :=
  normalized_phase ← normalized_phase_at date;
  mret (phase_bucket normalized_phase).

(** *** get_lunar_cycle_for_month *)

(** [(start_date + timedelta(days=32)).replace(day=1) - timedelta(days=1)] *)
Definition month_end (start_date : datetime) : outcome datetime :=
  td32 ← timedelta_new 32 0 0;
  t ← Datetime.add start_date td32;
  t ← replace_day t 1;
  td1 ← timedelta_new 1 0 0;
  sub_timedelta t td1.

(** The [while current_date <= end_date] loop; [fuel] bounds the number
    of iterations. *)
Fixpoint lunar_cycle_loop (fuel : nat) (current_date end_date : datetime)
    (lunar_cycle : gmap string string) : outcome (gmap string string) :=
  if Datetime.leb current_date end_date then
    match fuel with
    | O => OutOfFuel
    | S fuel' =>
        phase ← calculate_lunar_phase current_date;
        let lunar_cycle := <[strftime_ymd current_date := phase]> lunar_cycle in
        td1 ← timedelta_new 1 0 0;
        current_date ← Datetime.add current_date td1;
        lunar_cycle_loop fuel' current_date end_date lunar_cycle
    end
  else Ok lunar_cycle.

Definition get_lunar_cycle_for_month (fuel : nat) (year month : Z)
    : outcome (gmap string string) :=
  start_date ← datetime_new year month 1 0 0 0 0;
  end_date ← month_end start_date;
  lunar_cycle_loop fuel start_date end_date ∅.

(** *** plot_observations_by_lunar_phase *)

(** Truth value of a [str]: every string but the empty one. *)
Definition truthy (s : string) : bool := negb (String.eqb s "").

(** [d[k] += n] on a [defaultdict(int)]. *)
Definition add_count (k : string) (n : Z) (d : gmap string Z) : gmap string Z :=
  <[k := default 0 (d !! k) + n]> d.

(** One iteration of the loop of lines 107 to 110: [lunar_cycle.get(date)]
    is [None] for a missing date, and [None] and the empty string are
    both false. *)
Definition bucket_step (lunar_cycle : gmap string string)
    (date : string) (count : Z) (phase_counts : gmap string Z) : gmap string Z :=
  match lunar_cycle !! date with
  | Some lunar_phase =>
      if truthy lunar_phase then add_count lunar_phase count phase_counts
      else phase_counts
  | None => phase_counts
  end.

Definition phase_counts_of (observations : gmap string Z)
    (lunar_cycle : gmap string string) : gmap string Z :=
  map_fold (bucket_step lunar_cycle) ∅ observations.

(** The function returns nothing; its result here is what it hands to
    [plt.bar]: the labels and, for each, the bar height [phase_counts[phase]]
    (zero for a bucket that was never incremented).  The title, axis labels
    and figure calls carry no computed value and are left out. *)
Definition plot_observations_by_lunar_phase (observations : gmap string Z)
    (lunar_cycle : gmap string string) : list (string * Z) :=
  let phase_counts := phase_counts_of observations lunar_cycle in
  let counts := (fun phase => default 0 (phase_counts !! phase)) <$> LUNAR_PHASES in
  zip LUNAR_PHASES counts.

(** *** The observation service and the functions that query it *)

(** The [params] dictionary of [get_inaturalist_daily_observations]; its
    [order] and [order_by] entries are constants. *)
Record params : Type := QueryParams {
  taxon_id : Z;
  d1 : string;
  d2 : string;
  per_page : Z;
  page : Z
}.

(** What a request carries: [get_taxon_name] sends a [taxon_id] and
    [per_page], the pagination loop its [params]. *)
Inductive query : Type :=
| TaxonQuery (taxon_id per_page : Z)
| PageQuery (p : params).

(** A result of the service: its [observed_on] date and the name of its
    taxon. *)
Record observation : Type := Observation {
  observed_on : string;
  taxon_name : string
}.

(** A response: whether its status is a success, and the [results] array
    of its JSON body when the body has one. *)
Record response : Type := Response {
  status_ok : bool;
  results : option (list observation)
}.

Definition raise_for_status (r : response) : outcome response :=
  if status_ok r then Ok r else Raise HTTPError.

Section Service.

(** [requests.get(BASE_URL, params=...)]. *)
Variable requests_get : query -> response.

Definition get_taxon_name (taxon_id : Z) : outcome string :=
  response ← raise_for_status (requests_get (TaxonQuery taxon_id 1));
  match results response with
  | None => Raise KeyError
  | Some [] => Raise IndexError
  | Some (r :: _) => Ok (taxon_name r)
  end.

(** Lines 29 to 32.  [start_date] is the text of [f"{year}-{month:02d}-01"];
    [strptime] with ["%Y-%m-%d"] reads it back exactly when the year is
    written with four digits and the month is one of 1..12, and raises
    [ValueError] otherwise.  In the first case the text is the one
    [strftime] prints for that day. *)
Definition query_range (year month : Z) : outcome (string * string) :=
  if in_range 1000 year 9999 && in_range 1 month 12 then
    let start_date := Datetime year month 1 0 0 0 0 in
    end_date ← month_end start_date;
    mret (strftime_ymd start_date, strftime_ymd end_date)
  else Raise ValueError.

(** Lines 53 and 54. *)
Definition count_results (rs : list observation) (observations : gmap string Z)
    : gmap string Z :=
  foldl (fun acc obs => add_count (observed_on obs) 1 acc) observations rs.

(** The [while True] loop of lines 45 to 58, on the mutable [params] and
    [observations]; it returns both as they are when the loop is left. *)
Fixpoint fetch_loop (fuel : nat) (p : params) (observations : gmap string Z)
    : outcome (gmap string Z * params) :=
  match fuel with
  | O => OutOfFuel
  | S fuel' =>
      response ← raise_for_status (requests_get (PageQuery p));
      let rs := default [] (results response) in
      match rs with
      | [] => Ok (observations, p)
      | _ :: _ =>
          let observations := count_results rs observations in
          if Z.of_nat (length rs) <? per_page p then Ok (observations, p)
          else fetch_loop fuel'
                 (QueryParams (taxon_id p) (d1 p) (d2 p) (per_page p) (page p + 1))
                 observations
      end
  end.

Definition get_inaturalist_daily_observations (fuel : nat)
    (taxon_id year month : Z) : outcome (gmap string Z) :=
  '(start_date, end_date) ← query_range year month;
  let p := QueryParams taxon_id start_date end_date 200 1 in
  '(observations, _) ← fetch_loop fuel p ∅;
  mret observations.

(** *** main *)

(** Lines 144 to 146: one month merged into the year's accumulators.
    [dict.update] lets the month's entry win on a key both have. *)
Definition merge_month (acc : gmap string Z * gmap string string)
    (observations : gmap string Z) (lunar_cycle : gmap string string)
    : gmap string Z * gmap string string :=
  (map_fold add_count acc.1 observations, lunar_cycle ∪ acc.2).

(** The [for month in ...] loop of lines 135 to 146. *)
Fixpoint main_loop (fuel : nat) (taxon_id year : Z) (months : list Z)
    (acc : gmap string Z * gmap string string)
    : outcome (gmap string Z * gmap string string) :=
  match months with
  | [] => Ok acc
  | month :: months' =>
      observations ← get_inaturalist_daily_observations fuel taxon_id year month;
      _ ← get_taxon_name taxon_id;
      lunar_cycle ← get_lunar_cycle_for_month fuel year month;
      main_loop fuel taxon_id year months' (merge_month acc observations lunar_cycle)
  end.

(** [main], given the two numbers read from the user; its result is the
    chart. *)
Definition main (fuel : nat) (taxon_id year : Z) : outcome (list (string * Z)) :=
  '(all_observations, all_lunar_cycle) ←
    main_loop fuel taxon_id year (seqZ 1 12) (∅, ∅);
  mret (plot_observations_by_lunar_phase all_observations all_lunar_cycle).

End Service.

(** The accumulators after the months of [pairs] were merged in the order
    of the list, and the chart drawn from them. *)
Definition aggregate (pairs : list (gmap string Z * gmap string string))
    : gmap string Z * gmap string string :=
  foldl (fun acc p => merge_month acc p.1 p.2) (∅, ∅) pairs.

Definition histogram (pairs : list (gmap string Z * gmap string string))
    : list (string * Z) :=
  plot_observations_by_lunar_phase (aggregate pairs).1 (aggregate pairs).2.

(* ===================================================================== *)
(** ** Vocabulary of the statements                                      *)
(* ===================================================================== *)

(** The definitions below are not part of the program: they name what the
    statements about it speak of. *)

(** *** The calendar *)

(** The month and day computed from the day of the year [n] (from zero)
    in the last lines of [_ord2ymd]. *)
Definition month_day (leapyear : bool) (n : Z) : Z * Z :=
  let month := Z.shiftr (n + 50) 5 in
  let preceding := index _DAYS_BEFORE_MONTH month
                   + b2z ((2 <? month) && leapyear) in
  if n <? preceding then
    let month := month - 1 in
    let preceding := preceding
                     - (index _DAYS_IN_MONTH month
                        + b2z ((month =? 2) && leapyear)) in
    (month, n - preceding + 1)
  else (month, n - preceding + 1).

(** [_days_in_month] and [_days_before_month], as functions of whether
    the year is a leap year. *)
Definition dim (leapyear : bool) (m : Z) : Z :=
  if (m =? 2) && leapyear then 29 else index _DAYS_IN_MONTH m.

Definition dbm (leapyear : bool) (m : Z) : Z :=
  index _DAYS_BEFORE_MONTH m + b2z ((2 <? m) && leapyear).

(** Checks run over the days of a year: [month_day] of day [n] is a day of
    the calendar with that many days before it, and it finds every day of
    month [m] again. *)
Definition month_day_ok (leapyear : bool) (n : Z) : bool :=
  let '(m, d) := month_day leapyear n in
  in_range 1 m 12 && in_range 1 d (dim leapyear m) && (dbm leapyear m + d =? n + 1).

Definition day_of_year_ok (l : bool) (m : Z) : bool :=
  forallb (fun d => match month_day l (dbm l m + d - 1) with
                    | (m', d') => (m' =? m) && (d' =? d)
                    end
                    && in_range 1 (dbm l m + d) (365 + b2z l))
          (seqZ 1 (dim l m)).

(** An instant and a duration as whole numbers of microseconds. *)
Definition to_microseconds (t : datetime) : Z :=
  (toordinal t * 86400 + hour t * 3600 + minute t * 60 + second t) * 1000000
  + microsecond t.

Definition td_total (dt : timedelta) : Z :=
  (td_days dt * 86400 + td_seconds dt) * 1000000 + td_microseconds dt.

(** *** Phases and month tables *)

(** Days from the known new moon to [t], negative before it. *)
Definition elapsed_days (t : datetime) : Q :=
  (inject_Z (to_microseconds t - to_microseconds known_new_moon)
   / inject_Z 1000000 / inject_Z 86400)%Q.

(** The phase fraction of [t], as lines 67 and 68 compute it. *)
Definition normalized_phase (t : datetime) : Q :=
  (Float.mod_ (elapsed_days t) lunar_cycle_days / lunar_cycle_days)%Q.

(** Midnight of a day. *)
Definition day_at (y m d : Z) : datetime := Datetime y m d 0 0 0 0.

(** The month after [(y, m)]. *)
Definition next_month (y m : Z) : Z * Z :=
  if m =? 12 then (y + 1, 1) else (y, m + 1).

(** The table after the entries of the days in [ds] were written into
    [acc], in that order. *)
Definition write_days (y m : Z) (ds : list Z) (acc : gmap string string)
    : gmap string string :=
  foldl (fun acc d => <[strftime_ymd (day_at y m d)
                          := phase_bucket (normalized_phase (day_at y m d))]> acc)
        acc ds.

(** *** Counts and charts *)

(** [d[k]] on a [defaultdict(int)], as a value. *)
Definition count_at (d : gmap string Z) (k : string) : Z := default 0 (d !! k).

(** The sum of the counts of a dictionary. *)
Definition sum_counts (m : gmap string Z) : Z := map_fold (fun _ c s => c + s) 0 m.

(** The observations whose date has phase [phase] in the table, and those
    whose date has an entry at all. *)
Definition with_phase (lunar_cycle : gmap string string) (phase : string)
    (observations : gmap string Z) : gmap string Z :=
  filter (fun kv => lunar_cycle !! kv.1 = Some phase) observations.

Definition with_entry (lunar_cycle : gmap string string)
    (observations : gmap string Z) : gmap string Z :=
  filter (fun kv => is_Some (lunar_cycle !! kv.1)) observations.

(** The sum of the heights of the bars of a chart. *)
Definition bars_total (bars : list (string * Z)) : Z := foldr Z.add 0 (bars.*2).

(** A phase table in the sense of the data model: every value is one of the
    eight labels. *)
Definition phase_table (lunar_cycle : gmap string string) : Prop :=
  forall date phase, lunar_cycle !! date = Some phase -> phase ∈ LUNAR_PHASES.

(** *** Pages of results *)

(** The parameters of the request for page [i], and what that page holds. *)
Definition page_params (p : params) (i : Z) : params :=
  QueryParams (taxon_id p) (d1 p) (d2 p) (per_page p) i.

(** The number of results observed on [day]. *)
Definition observed_count (day : string) (rs : list observation) : Z :=
  Z.of_nat (length (filter (fun obs => observed_on obs = day) rs)).

Section Pages.

Variable requests_get : query -> response.

Definition page_response (p : params) (i : Z) : response :=
  requests_get (PageQuery (page_params p i)).

Definition page_results (p : params) (i : Z) : list observation :=
  default [] (results (page_response p i)).

(** The results of [n] pages in a row, from page [i] on. *)
Fixpoint pages_from (p : params) (n : nat) (i : Z) : list observation :=
  match n with
  | O => []
  | S n' => page_results p i ++ pages_from p n' (i + 1)
  end.

End Pages.

(** *** Examples *)

(** The table of a month of 2024 as a value, for the example below. *)
Definition table_2024 (m : Z) : gmap string string :=
  match get_lunar_cycle_for_month 31 2024 m with
  | Ok table => table
  | _ => ∅
  end.

(** Counts for January and February; one January date is also reported
    with the results of February. *)
Definition observations_2024 (m : Z) : gmap string Z :=
  if m =? 1 then {[ "2024-01-11"%string := 3; "2024-01-25"%string := 5 ]}
  else if m =? 2 then {[ "2024-02-24"%string := 4; "2024-01-25"%string := 1 ]}
  else ∅.

(** The observations and the table of the example: a date of the table
    seen three times, another five times, and a date the table lacks. *)
Definition example_observations : gmap string Z :=
  {[ "2024-01-11"%string := 3; "2024-01-25"%string := 5; "2024-02-30"%string := 7 ]}.

Definition example_table : gmap string string :=
  {[ "2024-01-11"%string := "New Moon"%string;
     "2024-01-25"%string := "Waxing Gibbous"%string;
     "2024-01-26"%string := "Full Moon"%string ]}.

(** A service with 450 results for the month: two full pages and a third
    of fifty. *)
Definition example_service (q : query) : response :=
  match q with
  | TaxonQuery _ _ => Response true (Some [Observation "2024-02-01" "Luna"])
  | PageQuery p =>
      Response true
        (Some (if page p <=? 2 then replicate 200 (Observation "2024-02-01" "Luna")
               else if page p =? 3 then replicate 50 (Observation "2024-02-14" "Luna")
               else []))
  end.

(** *** Vocabulary and examples of the further properties *)

(** The entries of a table whose value is one of the eight labels. *)
Definition labelled (lunar_cycle : gmap string string) : gmap string string :=
  filter (fun kv => kv.2 ∈ LUNAR_PHASES) lunar_cycle.

(** The value a computation returned, or [d] when it returned none. *)
Definition value_or {A : Type} (d : A) (c : outcome A) : A :=
  match c with
  | Ok a => a
  | _ => d
  end.

(** A service whose second page fails, and one whose pages never end. *)
Definition failing_service (q : query) : response :=
  match q with
  | TaxonQuery _ _ => Response false None
  | PageQuery p =>
      if page p =? 1
      then Response true (Some (replicate 200 (Observation "2024-02-01" "Luna")))
      else Response false None
  end.

Definition endless_service (q : query) : response :=
  Response true (Some (replicate 200 (Observation "2024-02-01" "Luna"))).

(** A table with no date of [example_observations], and [example_table]
    with the phase of a date that was not observed changed. *)
Definition other_year_table : gmap string string :=
  {[ "2023-12-31"%string := "Full Moon"%string ]}.

Definition example_table_changed : gmap string string :=
  <["2024-01-26"%string := "Waning Gibbous"%string]> example_table.

(** What the example service gives for a month of 2024. *)
Definition service_observations_2024 (m : Z) : gmap string Z :=
  value_or ∅ (get_inaturalist_daily_observations example_service 31 47219 2024 m).

(* ===================================================================== *)
(** ** Comparisons of rationals                                          *)
(* ===================================================================== *)

Lemma ltb_lt (x y : Q) : Float.ltb x y = true <-> (x < y)%Q.
Proof.
  unfold Float.ltb. rewrite negb_true_iff.
  destruct (Qle_bool y x) eqn:E.
  - apply Qle_bool_iff in E. split; [discriminate | intros H; exfalso; lra].
  - split; [intros _ | reflexivity].
    apply Qnot_le_lt. intros H. apply Qle_bool_iff in H. congruence.
Qed.

Lemma ltb_ge (x y : Q) : Float.ltb x y = false <-> (y <= x)%Q.
Proof.
  unfold Float.ltb. rewrite negb_false_iff. apply Qle_bool_iff.
Qed.

Lemma geb_ge (x y : Q) : Float.geb x y = true <-> (y <= x)%Q.
Proof. apply Qle_bool_iff. Qed.

Lemma geb_lt (x y : Q) : Float.geb x y = false <-> (x < y)%Q.
Proof.
  unfold Float.geb. destruct (Qle_bool y x) eqn:E.
  - apply Qle_bool_iff in E. split; [discriminate | intros H; exfalso; lra].
  - split; [intros _ | reflexivity].
    apply Qnot_le_lt. intros H. apply Qle_bool_iff in H. congruence.
Qed.

(** Turn the outcome of every comparison in the context into an order fact. *)
Ltac order_facts :=
  repeat match goal with
  | H : Float.ltb _ _ = true |- _ => apply ltb_lt in H
  | H : Float.ltb _ _ = false |- _ => apply ltb_ge in H
  | H : Float.geb _ _ = true |- _ => apply geb_ge in H
  | H : Float.geb _ _ = false |- _ => apply geb_lt in H
  end.

Ltac split_comparisons :=
  repeat match goal with
  | |- context [Float.ltb ?a ?b] => destruct (Float.ltb a b) eqn:?
  | |- context [Float.geb ?a ?b] => destruct (Float.geb a b) eqn:?
  end.

(* ===================================================================== *)
(** ** [%] on floats is the non-negative modulo for a positive divisor   *)
(* ===================================================================== *)

Section FloatMod.
Local Open Scope Q_scope.

Lemma fmod_rem (x y : Q) :
  ~ y == 0 ->
  Float.fmod x y == (Z.rem (Qnum (x / y)) (Zpos (Qden (x / y))) # Qden (x / y)) * y.
Proof.
  intros Hy. unfold Float.fmod.
  assert (Hx : x == (x / y) * y) by (field; exact Hy).
  destruct (x / y) as [n d] eqn:E. cbn [Qnum Qden].
  rewrite Hx at 1.
  assert (Hq : (n # d) - inject_Z (Z.quot n (Zpos d)) == Z.rem n (Zpos d) # d).
  { unfold Qeq, Qminus, Qplus, Qopp, inject_Z. cbn [Qnum Qden].
    pose proof (Z.quot_rem' n (Zpos d)). nia. }
  rewrite <- Hq. ring.
Qed.

Lemma floor_of_quot (n : Z) (d : positive) :
  Qfloor (n # d) = (Z.quot n (Zpos d) - (if Z.rem n (Zpos d) <? 0 then 1 else 0))%Z.
Proof.
  unfold Qfloor.
  destruct (Z.ltb_spec (Z.rem n (Zpos d)) 0);
    Z.to_euclidean_division_equations; nia.
Qed.

(** [x % y] is [x - floor(x / y) * y] when [y] is positive. *)
Lemma mod_floor (x y : Q) :
  0 < y -> Float.mod_ x y == x - inject_Z (Qfloor (x / y)) * y.
Proof.
  intros Hy.
  assert (Hy0 : ~ y == 0) by lra.
  assert (Hx : x == (x / y) * y) by (field; exact Hy0).
  pose proof (fmod_rem x y Hy0) as Hm.
  unfold Float.mod_.
  set (m := Float.fmod x y) in *.
  destruct (x / y) as [n d] eqn:E. cbn [Qnum Qden] in Hm.
  rewrite floor_of_quot.
  assert (Hfm : m == x - inject_Z (Z.quot n (Zpos d)) * y).
  { subst m. unfold Float.fmod. rewrite E. cbn [Qnum Qden]. reflexivity. }
  set (r := Z.rem n (Zpos d)) in *.
  assert (Hsign : forall z : Z, (0 < (z # d) * y <-> (0 < z)%Z)
                                /\ ((z # d) * y < 0 <-> (z < 0)%Z)
                                /\ ((z # d) * y == 0 <-> z = 0%Z)).
  { intros z.
    assert (Hd : 0 < / inject_Z (Zpos d)) by (apply Qinv_lt_0_compat; reflexivity).
    assert (Hz : (z # d) * y == inject_Z z * (/ inject_Z (Zpos d) * y)).
    { rewrite (Qmake_Qdiv z d). unfold Qdiv. ring. }
    assert (Hp : 0 < / inject_Z (Zpos d) * y) by (apply Qmult_lt_0_compat; assumption).
    rewrite Hz. set (c := / inject_Z (Zpos d) * y) in *.
    destruct (Z.lt_trichotomy z 0) as [Hlt | [Heq | Hgt]].
    - assert (inject_Z z < 0) by (change 0 with (inject_Z 0); rewrite <- Zlt_Qlt; exact Hlt).
      assert (inject_Z z * c < 0) by nra.
      repeat split; intros; try lia; try lra.
    - subst z. assert (inject_Z 0 * c == 0) by ring.
      repeat split; intros; try lia; try lra.
    - assert (0 < inject_Z z) by (change 0 with (inject_Z 0); rewrite <- Zlt_Qlt; exact Hgt).
      assert (0 < inject_Z z * c) by nra.
      repeat split; intros; try lia; try lra. }
  destruct (Hsign r) as (Hpos & Hneg & Hzero).
  destruct (Qeq_bool m 0) eqn:Em.
  - apply Qeq_bool_iff in Em.
    assert (r = 0%Z) by (apply Hzero; rewrite <- Hm; exact Em).
    destruct (Z.ltb_spec r 0); [lia |].
    rewrite Z.sub_0_r. lra.
  - apply Qeq_bool_neq in Em.
    assert (Hy' : Float.ltb y 0 = false) by (apply ltb_ge; lra).
    rewrite Hy'. cbn [xorb].
    destruct (Float.ltb m 0) eqn:El; order_facts.
    + assert (r < 0)%Z by (apply Hneg; rewrite <- Hm; exact El).
      destruct (Z.ltb_spec r 0); [| lia].
      rewrite Hfm. unfold Z.sub. rewrite inject_Z_plus.
      change (inject_Z (- (1))) with (- (1)). ring.
    + assert (~ (r < 0)%Z) by (intros Hr; apply Hneg in Hr; rewrite <- Hm in Hr; lra).
      destruct (Z.ltb_spec r 0); [lia |].
      rewrite Z.sub_0_r. exact Hfm.
Qed.

(** The result of [%] lies in [[0, y)]. *)
Lemma mod_range (x y : Q) : 0 < y -> 0 <= Float.mod_ x y < y.
Proof.
  intros Hy. rewrite (mod_floor x y Hy).
  assert (Hy0 : ~ y == 0) by lra.
  assert (Hx : x == (x / y) * y) by (field; exact Hy0).
  pose proof (Qfloor_le (x / y)) as Hlo.
  pose proof (Qlt_floor (x / y)) as Hhi.
  rewrite inject_Z_plus in Hhi. change (inject_Z 1) with 1 in Hhi.
  set (q := x / y) in *. set (k := inject_Z (Qfloor q)) in *.
  assert (x - k * y == (q - k) * y) by (rewrite Hx at 1; ring).
  assert (0 <= (q - k) * y) by (apply Qmult_le_0_compat; lra).
  assert ((q - k) * y < 1 * y) by (apply Qmult_lt_compat_r; lra).
  lra.
Qed.

End FloatMod.

(* ===================================================================== *)
(** ** The calendar: ordinals and dates                                  *)
(* ===================================================================== *)

Section Calendar.

Lemma forallb_seqZ (P : Z -> bool) (lo len : Z) :
  forallb P (seqZ lo len) = true ->
  forall n, lo <= n < lo + len -> P n = true.
Proof.
  intros H n Hn. rewrite forallb_forall in H. apply H.
  apply list_elem_of_In, elem_of_seqZ. lia.
Qed.

Lemma month_day_spec (leapyear : bool) (n : Z) :
  0 <= n < 365 + b2z leapyear ->
  month_day_ok leapyear n = true.
Proof.
  intros Hn.
  destruct leapyear; cbn [b2z] in Hn.
  - apply (forallb_seqZ (month_day_ok true) 0 366); [vm_compute; reflexivity | lia].
  - apply (forallb_seqZ (month_day_ok false) 0 365); [vm_compute; reflexivity | lia].
Qed.

Lemma year_structure (a b c e : Z) :
  0 <= a -> 0 <= b <= 3 -> 0 <= c <= 24 -> 0 <= e <= 3 ->
  let y := 400 * a + 100 * b + 4 * c + e + 1 in
  _days_before_year y = 146097 * a + 36524 * b + 1461 * c + 365 * e
  /\ _is_leap y = ((e =? 3) && (negb (c =? 24) || (b =? 3))).
Proof.
  intros Ha Hb Hc He y. subst y. unfold _days_before_year, _is_leap.
  split.
  - Z.to_euclidean_division_equations. lia.
  - destruct (Z.eqb_spec e 3), (Z.eqb_spec c 24), (Z.eqb_spec b 3); cbn [andb orb negb];
    repeat match goal with |- context [?x =? 0] => destruct (Z.eqb_spec x 0) end;
    cbn [andb orb negb]; try reflexivity; exfalso;
    Z.to_euclidean_division_equations; lia.
Qed.

Lemma days_in_month_dim (y m : Z) : _days_in_month y m = dim (_is_leap y) m.
Proof. reflexivity. Qed.

Lemma days_before_month_dbm (y m : Z) :
  _days_before_month y m = dbm (_is_leap y) m.
Proof. reflexivity. Qed.

Lemma december (l : bool) : dim l 12 = 31 /\ dbm l 12 = 334 + b2z l.
Proof. destruct l; split; reflexivity. Qed.

Lemma ord2ymd_unfold (n0 : Z) :
  _ord2ymd n0 =
    let n := n0 - 1 in
    let a := n / 146097 in
    let r1 := n mod 146097 in
    let b := r1 / 36524 in
    let r2 := r1 mod 36524 in
    let c := r2 / 1461 in
    let r3 := r2 mod 1461 in
    let e := r3 / 365 in
    let r4 := r3 mod 365 in
    let y := a * 400 + 1 + (b * 100 + c * 4 + e) in
    if (e =? 4) || (b =? 4) then (y - 1, 12, 31)
    else
      let '(m, d) := month_day ((e =? 3) && (negb (c =? 24) || (b =? 3))) r4 in
      (y, m, d).
Proof.
  unfold _ord2ymd, month_day, _DI400Y, _DI100Y, _DI4Y. cbv zeta.
  destruct (_ || _); [reflexivity |].
  destruct (_ <? _); reflexivity.
Qed.

(** Every ordinal from 1 on is the ordinal of the date [_ord2ymd] gives,
    and that date is a calendar date. *)
Lemma ymd2ord_ord2ymd (n : Z) :
  1 <= n ->
  let '(y, m, d) := _ord2ymd n in
  1 <= y /\ 1 <= m <= 12 /\ 1 <= d <= _days_in_month y m /\ _ymd2ord y m d = n.
Proof.
  intros Hn. rewrite ord2ymd_unfold. cbv zeta.
  set (a := (n - 1) / 146097). set (r1 := (n - 1) mod 146097).
  set (b := r1 / 36524). set (r2 := r1 mod 36524).
  set (c := r2 / 1461). set (r3 := r2 mod 1461).
  set (e := r3 / 365). set (r4 := r3 mod 365).
  assert (Hdec : n - 1 = 146097 * a + 36524 * b + 1461 * c + 365 * e + r4
                 /\ 0 <= a /\ 0 <= b <= 4 /\ 0 <= c <= 24 /\ 0 <= e <= 4
                 /\ 0 <= r4 < 365
                 /\ (b = 4 -> c = 0 /\ e = 0 /\ r4 = 0)
                 /\ (e = 4 -> r4 = 0 /\ c <= 23)).
  { subst a r1 b r2 c r3 e r4. Z.to_euclidean_division_equations. lia. }
  clearbody a b c e r4. clear r1 r2 r3.
  destruct Hdec as (Hdec & Ha & Hb & Hc & He & Hr4 & Hb4 & He4).
  destruct (Z.eqb_spec b 4) as [Eb | Eb].
  - (* the last day of a 400-year cycle *)
    rewrite orb_true_r.
    destruct (Hb4 Eb) as (-> & -> & ->). subst b.
    destruct (year_structure a 3 24 3) as [Hy Hl]; try lia.
    cbv zeta in Hy, Hl. cbn in Hl.
    replace (a * 400 + 1 + (4 * 100 + 0 * 4 + 0) - 1)
      with (400 * a + 100 * 3 + 4 * 24 + 3 + 1) by lia.
    unfold _ymd2ord. rewrite days_in_month_dim, days_before_month_dbm.
    destruct (december (_is_leap (400 * a + 100 * 3 + 4 * 24 + 3 + 1))) as [-> ->].
    rewrite Hy, Hl. cbn [b2z]. lia.
  - destruct (Z.eqb_spec e 4) as [Ee | Ee].
    + (* the last day of a leap year *)
      cbn [orb]. destruct (He4 Ee) as [-> Hc23]. subst e.
      destruct (year_structure a b c 3) as [Hy Hl]; try lia.
      cbv zeta in Hy, Hl.
      replace (a * 400 + 1 + (b * 100 + c * 4 + 4) - 1)
        with (400 * a + 100 * b + 4 * c + 3 + 1) by lia.
      unfold _ymd2ord. rewrite days_in_month_dim, days_before_month_dbm.
      destruct (december (_is_leap (400 * a + 100 * b + 4 * c + 3 + 1))) as [-> ->].
      rewrite Hy, Hl.
      destruct (Z.eqb_spec c 24); [lia |]. cbn. lia.
    + cbn [orb].
      destruct (year_structure a b c e) as [Hy Hl]; try lia.
      cbv zeta in Hy, Hl.
      replace (a * 400 + 1 + (b * 100 + c * 4 + e))
        with (400 * a + 100 * b + 4 * c + e + 1) by lia.
      rewrite <- Hl.
      set (y := 400 * a + 100 * b + 4 * c + e + 1) in *.
      pose proof (month_day_spec (_is_leap y) r4) as Hmd.
      unfold month_day_ok in Hmd.
      destruct (month_day (_is_leap y) r4) as [m d].
      assert (Hr : 0 <= r4 < 365 + b2z (_is_leap y))
        by (destruct (_is_leap y); cbn; lia).
      specialize (Hmd Hr).
      apply andb_prop in Hmd as [Hmd H3]. apply andb_prop in Hmd as [H1 H2].
      unfold in_range in H1, H2.
      unfold _ymd2ord. rewrite days_in_month_dim, days_before_month_dbm.
      lia.
Qed.

Lemma days_before_year_succ (y : Z) :
  _days_before_year (y + 1) = _days_before_year y + 365 + b2z (_is_leap y).
Proof.
  unfold _days_before_year, _is_leap.
  repeat match goal with |- context [?x =? 0] => destruct (Z.eqb_spec x 0) end;
    cbn [andb orb negb b2z]; Z.to_euclidean_division_equations; lia.
Qed.

Lemma days_before_year_mono (y y' : Z) :
  y <= y' -> _days_before_year y <= _days_before_year y'.
Proof.
  intros H. unfold _days_before_year.
  Z.to_euclidean_division_equations. lia.
Qed.

Lemma day_of_year_spec (l : bool) (m d : Z) :
  1 <= m <= 12 -> 1 <= d <= dim l m ->
  month_day l (dbm l m + d - 1) = (m, d) /\ 1 <= dbm l m + d <= 365 + b2z l.
Proof.
  intros Hm Hd.
  assert (H : day_of_year_ok l m = true).
  { apply (forallb_seqZ (day_of_year_ok l) 1 12); [| lia].
    destruct l; vm_compute; reflexivity. }
  unfold day_of_year_ok in H.
  pose proof (forallb_seqZ _ 1 (dim l m) H d ltac:(lia)) as Hd'.
  cbv beta in Hd'. destruct (month_day l (dbm l m + d - 1)) as [m' d'].
  apply andb_prop in Hd' as [Hd' Hle]. apply andb_prop in Hd' as [H1 H2].
  unfold in_range in Hle. split; [f_equal; lia | lia].
Qed.

(** The date of the ordinal of a calendar date is that date. *)
Lemma ord2ymd_ymd2ord (y m d : Z) :
  1 <= y -> 1 <= m <= 12 -> 1 <= d <= _days_in_month y m ->
  _ord2ymd (_ymd2ord y m d) = (y, m, d).
Proof.
  intros Hy Hm Hd.
  rewrite days_in_month_dim in Hd.
  destruct (day_of_year_spec (_is_leap y) m d Hm Hd) as [Hmd Hle].
  assert (Hpos : 1 <= _ymd2ord y m d).
  { unfold _ymd2ord. rewrite days_before_month_dbm.
    pose proof (days_before_year_mono 1 y Hy) as H0.
    change (_days_before_year 1) with 0 in H0. lia. }
  pose proof (ymd2ord_ord2ymd (_ymd2ord y m d) Hpos) as H.
  destruct (_ord2ymd (_ymd2ord y m d)) as [[y' m'] d'].
  destruct H as (Hy' & Hm' & Hd' & Heq).
  unfold _ymd2ord in Heq.
  rewrite !days_before_month_dbm in Heq. rewrite days_in_month_dim in Hd'.
  destruct (day_of_year_spec (_is_leap y') m' d' Hm' Hd') as [Hmd' Hle'].
  assert (y' = y).
  { destruct (Z.lt_trichotomy y' y) as [Hlt | [Heq' | Hgt]]; [| exact Heq' |].
    - pose proof (days_before_year_succ y').
      pose proof (days_before_year_mono (y' + 1) y ltac:(lia)). lia.
    - pose proof (days_before_year_succ y).
      pose proof (days_before_year_mono (y + 1) y' ltac:(lia)). lia. }
  subst y'.
  assert (Hsame : dbm (_is_leap y) m' + d' - 1 = dbm (_is_leap y) m + d - 1) by lia.
  rewrite Hsame in Hmd'. congruence.
Qed.

End Calendar.

(* ===================================================================== *)
(** ** Arithmetic on datetimes                                           *)
(* ===================================================================== *)

Section DatetimeArithmetic.

Lemma valid_fields (t : datetime) :
  valid t = true <->
  (1 <= year t <= 9999 /\ 1 <= month t <= 12
   /\ 1 <= day t <= _days_in_month (year t) (month t))
  /\ 0 <= hour t <= 23 /\ 0 <= minute t <= 59 /\ 0 <= second t <= 59
  /\ 0 <= microsecond t <= 999999.
Proof.
  unfold valid, check_date_fields, check_time_fields, in_range, MINYEAR, MAXYEAR.
  rewrite !andb_true_iff, !Z.leb_le. tauto.
Qed.

Lemma datetime_new_ok (y m d h mi s us : Z) :
  valid (Datetime y m d h mi s us) = true ->
  datetime_new y m d h mi s us = Ok (Datetime y m d h mi s us).
Proof. unfold datetime_new, valid. cbn. intros ->. reflexivity. Qed.

Lemma datetime_new_error (y m d h mi s us : Z) :
  valid (Datetime y m d h mi s us) = false ->
  datetime_new y m d h mi s us = Raise ValueError.
Proof. unfold datetime_new, valid. cbn. intros ->. reflexivity. Qed.

(** The ordinal of a representable date lies in [1 .. _MAXORDINAL]. *)
Lemma toordinal_range (y m d : Z) :
  1 <= y <= 9999 -> 1 <= m <= 12 -> 1 <= d <= _days_in_month y m ->
  1 <= _ymd2ord y m d <= _MAXORDINAL.
Proof.
  intros Hy Hm Hd. rewrite days_in_month_dim in Hd.
  destruct (day_of_year_spec (_is_leap y) m d Hm Hd) as [_ Hle].
  unfold _ymd2ord. rewrite days_before_month_dbm.
  pose proof (days_before_year_mono 1 y ltac:(lia)) as H0.
  change (_days_before_year 1) with 0 in H0.
  pose proof (days_before_year_succ y).
  pose proof (days_before_year_mono (y + 1) 10000 ltac:(lia)) as H1.
  change (_days_before_year 10000) with 3652059 in H1.
  unfold _MAXORDINAL. lia.
Qed.

(** The date of an ordinal in [1 .. _MAXORDINAL] is representable. *)
Lemma ord2ymd_range (n : Z) :
  1 <= n <= _MAXORDINAL ->
  let '(y, m, d) := _ord2ymd n in
  (1 <= y <= 9999 /\ 1 <= m <= 12 /\ 1 <= d <= _days_in_month y m)
  /\ _ymd2ord y m d = n.
Proof.
  intros Hn. pose proof (ymd2ord_ord2ymd n ltac:(lia)) as H.
  destruct (_ord2ymd n) as [[y m] d].
  destruct H as (Hy & Hm & Hd & Heq).
  repeat split; try lia.
  destruct (Z.le_gt_cases y 9999) as [Hle | Hgt]; [exact Hle | exfalso].
  pose proof (days_before_year_mono 10000 y ltac:(lia)) as H1.
  change (_days_before_year 10000) with 3652059 in H1.
  rewrite days_in_month_dim in Hd.
  destruct (day_of_year_spec (_is_leap y) m d Hm Hd) as [_ Hle].
  unfold _ymd2ord in Heq. rewrite days_before_month_dbm in Heq.
  unfold _MAXORDINAL in Hn. lia.
Qed.

Lemma timedelta_new_total (d s us : Z) (dt : timedelta) :
  timedelta_new d s us = Ok dt ->
  td_total dt = (d * 86400 + s) * 1000000 + us
  /\ 0 <= td_seconds dt < 86400 /\ 0 <= td_microseconds dt < 1000000.
Proof.
  unfold timedelta_new, td_total.
  destruct (_ <? _); [discriminate |].
  intros [= <-]. cbn [td_days td_seconds td_microseconds].
  Z.to_euclidean_division_equations. lia.
Qed.

Lemma timedelta_new_days (d s us : Z) :
  -999999999 <= d <= 999999999 -> 0 <= s < 86400 -> 0 <= us < 1000000 ->
  timedelta_new d s us = Ok (Timedelta d s us).
Proof.
  intros Hd Hs Hus. unfold timedelta_new.
  rewrite (Z.div_small us), (Z.mod_small us), Z.add_0_r by lia.
  rewrite (Z.div_small s), (Z.mod_small s), Z.add_0_r by lia.
  destruct (Z.ltb_spec 999999999 (Z.abs d)); [lia | reflexivity].
Qed.

(** [datetime + timedelta], when it returns, is a representable instant
    that many microseconds later. *)
Lemma add_ok (t t' : datetime) (dt : timedelta) :
  valid t = true -> Datetime.add t dt = Ok t' ->
  valid t' = true /\ to_microseconds t' = to_microseconds t + td_total dt.
Proof.
  intros Hv. unfold Datetime.add.
  destruct (timedelta_new _ _ _) as [delta | |] eqn:E; try discriminate.
  cbn [mbind outcome_bind Py.bind].
  apply timedelta_new_total in E as (Etot & Hs & Hus).
  destruct (_ && _) eqn:Hr; [| discriminate].
  apply andb_prop in Hr as [Hr1 Hr2].
  pose proof (ord2ymd_range (td_days delta) ltac:(lia)) as Ho.
  destruct (_ord2ymd (td_days delta)) as [[y m] d].
  destruct Ho as [Hdate Hord]. intros [= <-].
  split.
  - apply valid_fields. cbn [year month day hour minute second microsecond].
    split; [exact Hdate |]. Z.to_euclidean_division_equations. lia.
  - unfold to_microseconds, toordinal in *.
    cbn [year month day hour minute second microsecond].
    rewrite Hord. unfold td_total in *.
    Z.to_euclidean_division_equations. lia.
Qed.

(** Moving a representable instant by whole days keeps its time of day. *)
Lemma add_days (t : datetime) (k : Z) :
  valid t = true ->
  1 <= toordinal t + k <= _MAXORDINAL ->
  Datetime.add t (Timedelta k 0 0) =
    Ok (let '(y, m, d) := _ord2ymd (toordinal t + k) in
        Datetime y m d (hour t) (minute t) (second t) (microsecond t)).
Proof.
  intros Hv Hk. apply valid_fields in Hv as (Hdate & Hh & Hmi & Hs & Hus).
  unfold Datetime.add. cbn [td_days td_seconds td_microseconds].
  rewrite !Z.add_0_r.
  rewrite timedelta_new_days by (unfold _MAXORDINAL in Hk; lia).
  cbn [mbind outcome_bind Py.bind td_days td_seconds td_microseconds].
  destruct (Z.ltb_spec 0 (toordinal t + k)); [| lia].
  destruct (Z.leb_spec (toordinal t + k) _MAXORDINAL); [| lia].
  cbn [andb]. destruct (_ord2ymd (toordinal t + k)) as [[y m] d].
  f_equal. f_equal; Z.to_euclidean_division_equations; lia.
Qed.

Lemma add_days_overflow (t : datetime) (k : Z) :
  valid t = true -> 0 <= k <= 999999 ->
  _MAXORDINAL < toordinal t + k ->
  Datetime.add t (Timedelta k 0 0) = Raise OverflowError.
Proof.
  intros Hv Hk0 Hk. apply valid_fields in Hv as (Hdate & Hh & Hmi & Hs & Hus).
  pose proof (toordinal_range _ _ _ (proj1 Hdate) (proj1 (proj2 Hdate)) (proj2 (proj2 Hdate))) as Ho.
  fold (toordinal t) in Ho.
  unfold Datetime.add. cbn [td_days td_seconds td_microseconds].
  rewrite !Z.add_0_r.
  rewrite timedelta_new_days by (unfold _MAXORDINAL in *; lia).
  cbn [mbind outcome_bind Py.bind td_days td_seconds td_microseconds].
  destruct (Z.leb_spec (toordinal t + k) _MAXORDINAL); [lia |].
  rewrite andb_false_r. reflexivity.
Qed.

(** [datetime - datetime] of representable instants always returns, and
    its length is the difference of the two instants. *)
Lemma sub_ok (a b : datetime) :
  valid a = true -> valid b = true ->
  exists dt, Datetime.sub a b = Ok dt
             /\ td_total dt = to_microseconds a - to_microseconds b.
Proof.
  intros Ha Hb.
  apply valid_fields in Ha as (Hda & Hha & Hmia & Hsa & Husa).
  apply valid_fields in Hb as (Hdb & Hhb & Hmib & Hsb & Husb).
  pose proof (toordinal_range _ _ _ (proj1 Hda) (proj1 (proj2 Hda)) (proj2 (proj2 Hda))) as Hoa.
  pose proof (toordinal_range _ _ _ (proj1 Hdb) (proj1 (proj2 Hdb)) (proj2 (proj2 Hdb))) as Hob.
  fold (toordinal a) in Hoa. fold (toordinal b) in Hob.
  unfold Datetime.sub.
  destruct (timedelta_new _ _ _) as [dt | e |] eqn:E.
  - exists dt. split; [reflexivity |].
    apply timedelta_new_total in E as (Etot & _). rewrite Etot.
    unfold to_microseconds. lia.
  - exfalso. unfold timedelta_new in E.
    match type of E with
    | (if ?c then _ else _) = _ => destruct c eqn:Hbig; [| discriminate]
    end.
    apply Z.ltb_lt in Hbig.
    unfold _MAXORDINAL in *. Z.to_euclidean_division_equations. lia.
  - exfalso. unfold timedelta_new in E. destruct (_ <? _); discriminate.
Qed.

End DatetimeArithmetic.

(* ===================================================================== *)
(** ** calculate_lunar_phase                                             *)
(* ===================================================================== *)

Section Phase.

Lemma known_new_moon_valid : valid known_new_moon = true.
Proof. reflexivity. Qed.

Lemma lunar_cycle_days_pos : (0 < lunar_cycle_days)%Q.
Proof. reflexivity. Qed.

Lemma normalized_phase_at_ok (t : datetime) :
  valid t = true -> normalized_phase_at t = Ok (normalized_phase t).
Proof.
  intros Hv. unfold normalized_phase_at.
  destruct (sub_ok t known_new_moon Hv known_new_moon_valid) as (dt & -> & Htot).
  cbn [mbind outcome_bind Py.bind mret outcome_ret].
  unfold normalized_phase, elapsed_days, total_seconds.
  unfold td_total in Htot. rewrite Htot. reflexivity.
Qed.

Lemma calculate_lunar_phase_ok (t : datetime) :
  valid t = true ->
  calculate_lunar_phase t = Ok (phase_bucket (normalized_phase t)).
Proof.
  intros Hv. unfold calculate_lunar_phase.
  rewrite (normalized_phase_at_ok t Hv). reflexivity.
Qed.

Lemma normalized_phase_range (t : datetime) :
  (0 <= normalized_phase t < 1)%Q.
Proof.
  unfold normalized_phase.
  pose proof (mod_range (elapsed_days t) lunar_cycle_days lunar_cycle_days_pos) as [Hlo Hhi].
  pose proof lunar_cycle_days_pos as Hp.
  set (r := Float.mod_ _ _) in *. set (p := lunar_cycle_days) in *.
  split.
  - apply Qle_shift_div_l; [exact Hp | lra].
  - apply Qlt_shift_div_r; [exact Hp | lra].
Qed.

Lemma phase_bucket_label (f : Q) : phase_bucket f ∈ LUNAR_PHASES.
Proof.
  unfold phase_bucket, LUNAR_PHASES.
  repeat match goal with
  | |- context [if ?c then _ else _] => destruct c
  end; set_solver.
Qed.

#[local] Instance ltb_proper : Proper (Qeq ==> Qeq ==> eq) Float.ltb.
Proof. intros x x' Hx y y' Hy. unfold Float.ltb. rewrite Hx, Hy. reflexivity. Qed.

#[local] Instance geb_proper : Proper (Qeq ==> Qeq ==> eq) Float.geb.
Proof. intros x x' Hx y y' Hy. unfold Float.geb. rewrite Hx, Hy. reflexivity. Qed.

(** The bucket depends on the value of the fraction only. *)
Lemma phase_bucket_proper (f g : Q) : (f == g)%Q -> phase_bucket f = phase_bucket g.
Proof. intros H. unfold phase_bucket. rewrite !H. reflexivity. Qed.

Lemma floor_unique (q : Q) (k : Z) :
  (inject_Z k <= q < inject_Z (k + 1))%Q -> Qfloor q = k.
Proof.
  intros [Hlo Hhi].
  pose proof (Qfloor_le q) as H1. pose proof (Qlt_floor q) as H2.
  assert (Ha : (inject_Z k < inject_Z (Qfloor q + 1))%Q) by lra.
  assert (Hb : (inject_Z (Qfloor q) < inject_Z (k + 1))%Q) by lra.
  rewrite <- Zlt_Qlt in Ha, Hb. lia.
Qed.

(** Adding the divisor does not change the result of [%]. *)
Lemma mod_add_period (x y : Q) :
  (0 < y)%Q -> (Float.mod_ (x + y) y == Float.mod_ x y)%Q.
Proof.
  intros Hy. rewrite !mod_floor by exact Hy.
  assert (Hf : Qfloor ((x + y) / y) = (Qfloor (x / y) + 1)%Z).
  { apply floor_unique.
    assert (Hq : ((x + y) / y == x / y + 1)%Q) by (field; lra).
    rewrite Hq.
    pose proof (Qfloor_le (x / y)). pose proof (Qlt_floor (x / y)).
    rewrite !inject_Z_plus in *. change (inject_Z 1) with 1%Q in *. lra. }
  rewrite Hf, inject_Z_plus. change (inject_Z 1) with 1%Q. ring.
Qed.

Lemma normalized_phase_period (t t' : datetime) :
  to_microseconds t' = to_microseconds t + 2551442861088 ->
  (normalized_phase t' == normalized_phase t)%Q.
Proof.
  intros H. unfold normalized_phase.
  assert (He : (elapsed_days t' == elapsed_days t + lunar_cycle_days)%Q).
  { unfold elapsed_days. rewrite H.
    replace (to_microseconds t + 2551442861088 - to_microseconds known_new_moon)
      with ((to_microseconds t - to_microseconds known_new_moon) + 2551442861088) by lia.
    rewrite inject_Z_plus.
    set (e := inject_Z (to_microseconds t - to_microseconds known_new_moon)).
    unfold lunar_cycle_days.
    assert (Hc : (inject_Z 2551442861088 / inject_Z 1000000 / inject_Z 86400
                  == 2953058867 # 100000000)%Q) by reflexivity.
    rewrite <- Hc. field. }
  rewrite <- (mod_add_period (elapsed_days t) _ lunar_cycle_days_pos).
  rewrite !mod_floor by exact lunar_cycle_days_pos.
  assert (Hf : Qfloor (elapsed_days t' / lunar_cycle_days)
               = Qfloor ((elapsed_days t + lunar_cycle_days) / lunar_cycle_days))
    by (rewrite He; reflexivity).
  rewrite Hf. unfold Qdiv at 1 3.
  apply Qmult_comp; [| reflexivity].
  set (k := (inject_Z _ * _)%Q). lra.
Qed.

End Phase.

(* ===================================================================== *)
(** ** strftime                                                          *)
(* ===================================================================== *)

Section Strftime.

Lemma digit_inj (a b : Z) :
  0 <= a <= 9 -> 0 <= b <= 9 -> digit a = digit b -> a = b.
Proof.
  intros Ha Hb H. unfold digit in H.
  rewrite !Z.mod_small in H by lia.
  apply (f_equal nat_of_ascii) in H.
  rewrite !nat_ascii_embedding in H by lia. lia.
Qed.

Lemma pad2_inj (a b : Z) :
  0 <= a <= 99 -> 0 <= b <= 99 -> pad2 a = pad2 b -> a = b.
Proof.
  intros Ha Hb H. unfold pad2 in H. injection H as H1 H2.
  assert (E1 : a / 10 = b / 10)
    by (apply digit_inj; [| | exact H1]; Z.to_euclidean_division_equations; lia).
  assert (E2 : a mod 10 = b mod 10).
  { apply digit_inj; try (Z.to_euclidean_division_equations; lia).
    unfold digit in *. rewrite !Zmod_mod. exact H2. }
  Z.to_euclidean_division_equations. lia.
Qed.

Lemma pad4_inj (a b : Z) :
  0 <= a <= 9999 -> 0 <= b <= 9999 -> pad4 a = pad4 b -> a = b.
Proof.
  intros Ha Hb H. unfold pad4, pad2 in H. injection H as H1 H2 H3 H4.
  assert (E1 : a / 1000 = b / 1000)
    by (apply digit_inj; [| | exact H1]; Z.to_euclidean_division_equations; lia).
  assert (E2 : (a / 100) mod 10 = (b / 100) mod 10).
  { apply digit_inj; try (Z.to_euclidean_division_equations; lia).
    unfold digit in *. rewrite !Zmod_mod. exact H2. }
  assert (E3 : (a / 10) mod 10 = (b / 10) mod 10).
  { apply digit_inj; try (Z.to_euclidean_division_equations; lia).
    unfold digit in *. rewrite !Zmod_mod. exact H3. }
  assert (E4 : a mod 10 = b mod 10).
  { apply digit_inj; try (Z.to_euclidean_division_equations; lia).
    unfold digit in *. rewrite !Zmod_mod. exact H4. }
  Z.to_euclidean_division_equations. lia.
Qed.

Lemma days_in_month_bounds (y m : Z) :
  1 <= m <= 12 -> 28 <= _days_in_month y m <= 31.
Proof.
  intros Hm. rewrite days_in_month_dim.
  assert (Hc : m = 1 \/ m = 2 \/ m = 3 \/ m = 4 \/ m = 5 \/ m = 6 \/ m = 7
               \/ m = 8 \/ m = 9 \/ m = 10 \/ m = 11 \/ m = 12) by lia.
  destruct (_is_leap y);
    repeat (destruct Hc as [-> | Hc]; [vm_compute; split; discriminate |]);
    subst m; vm_compute; split; discriminate.
Qed.

(** Two representable dates with the same text are the same date. *)
Lemma strftime_ymd_inj (a b : datetime) :
  valid a = true -> valid b = true ->
  strftime_ymd a = strftime_ymd b ->
  year a = year b /\ month a = month b /\ day a = day b.
Proof.
  intros Ha Hb H.
  apply valid_fields in Ha as ((Hya & Hma & Hda) & _).
  apply valid_fields in Hb as ((Hyb & Hmb & Hdb) & _).
  pose proof (days_in_month_bounds (year a) _ Hma).
  pose proof (days_in_month_bounds (year b) _ Hmb).
  unfold strftime_ymd, pad4, pad2 in H. cbn [String.append] in H.
  injection H as Y1 Y2 Y3 Y4 M1 M2 D1 D2.
  repeat split.
  - apply pad4_inj; try lia. unfold pad4, pad2. congruence.
  - apply pad2_inj; try lia. unfold pad2. congruence.
  - apply pad2_inj; try lia. unfold pad2. congruence.
Qed.

End Strftime.

(* ===================================================================== *)
(** ** get_lunar_cycle_for_month                                         *)
(* ===================================================================== *)

Section MonthTable.

Lemma write_days_cons (y m d : Z) (ds : list Z) (acc : gmap string string) :
  write_days y m (d :: ds) acc
  = write_days y m ds
      (<[strftime_ymd (day_at y m d)
         := phase_bucket (normalized_phase (day_at y m d))]> acc).
Proof. reflexivity. Qed.

Lemma day_at_valid (y m d : Z) :
  1 <= y <= 9999 -> 1 <= m <= 12 -> 1 <= d <= _days_in_month y m ->
  valid (day_at y m d) = true.
Proof. intros. apply valid_fields. cbn. lia. Qed.

Lemma first_of_next_month (y m : Z) :
  1 <= m <= 12 ->
  _ymd2ord (next_month y m).1 (next_month y m).2 1
  = _ymd2ord y m 1 + _days_in_month y m.
Proof.
  intros Hm. unfold next_month, _ymd2ord.
  rewrite !days_before_month_dbm, days_in_month_dim.
  destruct (Z.eqb_spec m 12) as [-> | Hne]; cbn [fst snd].
  - rewrite days_before_year_succ.
    destruct (december (_is_leap y)) as [-> ->].
    change (dbm (_is_leap (y + 1)) 1) with 0. lia.
  - assert (Ht : dbm (_is_leap y) (m + 1) = dbm (_is_leap y) m + dim (_is_leap y) m).
    { assert (Hc : m = 1 \/ m = 2 \/ m = 3 \/ m = 4 \/ m = 5 \/ m = 6 \/ m = 7
                   \/ m = 8 \/ m = 9 \/ m = 10 \/ m = 11) by lia.
      destruct (_is_leap y);
        repeat (destruct Hc as [-> | Hc]; [vm_compute; reflexivity |]);
        subst m; vm_compute; reflexivity. }
    lia.
Qed.

Lemma next_month_range (y m : Z) :
  1 <= y <= 9999 -> 1 <= m <= 12 -> ~ (y = 9999 /\ m = 12) ->
  1 <= (next_month y m).1 <= 9999 /\ 1 <= (next_month y m).2 <= 12.
Proof.
  intros Hy Hm Hne. unfold next_month.
  destruct (Z.eqb_spec m 12); cbn [fst snd]; lia.
Qed.

(** One day after day [d] of a month: the next day of the month, or the
    first day of the next month after the last one. *)
Lemma add_one_day (y m d : Z) :
  1 <= y <= 9999 -> 1 <= m <= 12 -> ~ (y = 9999 /\ m = 12) ->
  1 <= d <= _days_in_month y m ->
  Datetime.add (day_at y m d) (Timedelta 1 0 0) =
    Ok (if d <? _days_in_month y m then day_at y m (d + 1)
        else day_at (next_month y m).1 (next_month y m).2 1).
Proof.
  intros Hy Hm Hne Hd.
  pose proof (next_month_range y m Hy Hm Hne) as [Hny Hnm].
  pose proof (days_in_month_bounds (next_month y m).1 _ Hnm) as Hnd.
  pose proof (first_of_next_month y m Hm) as Hf.
  assert (Ho : toordinal (day_at y m d) + 1
               = if d <? _days_in_month y m then _ymd2ord y m (d + 1)
                 else _ymd2ord (next_month y m).1 (next_month y m).2 1).
  { unfold toordinal. cbn [year month day day_at].
    destruct (Z.ltb_spec d (_days_in_month y m)); unfold _ymd2ord in *; lia. }
  rewrite add_days.
  - rewrite Ho. destruct (Z.ltb_spec d (_days_in_month y m)).
    + rewrite ord2ymd_ymd2ord by lia. reflexivity.
    + rewrite ord2ymd_ymd2ord by lia. reflexivity.
  - apply day_at_valid; assumption.
  - rewrite Ho. destruct (Z.ltb_spec d (_days_in_month y m));
      apply toordinal_range; lia.
Qed.

(** The last day of the month, as the program computes it. *)
Lemma month_end_ok (y m : Z) :
  1 <= y <= 9999 -> 1 <= m <= 12 -> ~ (y = 9999 /\ m = 12) ->
  month_end (day_at y m 1) = Ok (day_at y m (_days_in_month y m)).
Proof.
  intros Hy Hm Hne.
  pose proof (days_in_month_bounds y m Hm) as Hdim.
  pose proof (next_month_range y m Hy Hm Hne) as [Hny Hnm].
  pose proof (days_in_month_bounds (next_month y m).1 _ Hnm) as Hnd.
  pose proof (first_of_next_month y m Hm) as Hf.
  set (ny := (next_month y m).1) in *. set (nm := (next_month y m).2) in *.
  unfold month_end.
  rewrite (timedelta_new_days 32 0 0), (timedelta_new_days 1 0 0) by lia.
  cbn [mbind outcome_bind Py.bind].
  assert (H32 : toordinal (day_at y m 1) + 32 = _ymd2ord ny nm (33 - _days_in_month y m)).
  { unfold toordinal. cbn [year month day day_at]. unfold _ymd2ord in *. lia. }
  rewrite add_days.
  2: { apply day_at_valid; lia. }
  2: { rewrite H32. apply toordinal_range; lia. }
  rewrite H32, ord2ymd_ymd2ord by lia.
  cbn [mbind outcome_bind Py.bind].
  unfold replace_day. cbn [year month day hour minute second microsecond day_at].
  rewrite datetime_new_ok by (apply (day_at_valid ny nm 1); lia).
  cbn [mbind outcome_bind Py.bind].
  unfold sub_timedelta.
  change (neg (Timedelta 1 0 0)) with (Ok (Timedelta (-1) 0 0)).
  cbn [mbind outcome_bind Py.bind].
  assert (Hm1 : toordinal (Datetime ny nm 1 0 0 0 0) + -1
                = _ymd2ord y m (_days_in_month y m)).
  { unfold toordinal. cbn [year month day]. unfold _ymd2ord in *. lia. }
  rewrite add_days.
  2: { apply (day_at_valid ny nm 1); lia. }
  2: { rewrite Hm1. apply toordinal_range; lia. }
  rewrite Hm1, ord2ymd_ymd2ord by lia. reflexivity.
Qed.

(** December of year 9999 has no next month to step into. *)
Lemma month_end_overflow : month_end (day_at 9999 12 1) = Raise OverflowError.
Proof. reflexivity. Qed.

Lemma leb_same_month (y m d e : Z) :
  Datetime.leb (day_at y m d) (day_at y m e) = (d <=? e).
Proof.
  unfold Datetime.leb, fields. cbn.
  rewrite !Z.ltb_irrefl, !Z.eqb_refl. cbn.
  destruct (Z.ltb_spec d e), (Z.eqb_spec d e), (Z.leb_spec d e);
    cbn; try reflexivity; lia.
Qed.

Lemma leb_next_month (y m e : Z) :
  1 <= m <= 12 ->
  Datetime.leb (day_at (next_month y m).1 (next_month y m).2 1) (day_at y m e) = false.
Proof.
  intros Hm. unfold Datetime.leb, fields, next_month.
  destruct (Z.eqb_spec m 12); cbn [fst snd lex_leb year month day day_at
    hour minute second microsecond].
  - destruct (Z.ltb_spec (y + 1) y), (Z.eqb_spec (y + 1) y);
      cbn; try lia; reflexivity.
  - rewrite Z.ltb_irrefl, Z.eqb_refl. cbn [orb andb].
    destruct (Z.ltb_spec (m + 1) m), (Z.eqb_spec (m + 1) m);
      cbn; try lia; reflexivity.
Qed.

(** One turn of the loop, and its exit. *)
Lemma lunar_cycle_loop_step (fuel : nat) (current_date end_date next : datetime)
    (phase : string) (acc : gmap string string) :
  Datetime.leb current_date end_date = true ->
  calculate_lunar_phase current_date = Ok phase ->
  Datetime.add current_date (Timedelta 1 0 0) = Ok next ->
  lunar_cycle_loop (S fuel) current_date end_date acc
  = lunar_cycle_loop fuel next end_date (<[strftime_ymd current_date := phase]> acc).
Proof.
  intros Hle Hp Ha. cbn [lunar_cycle_loop]. rewrite Hle, Hp.
  cbn [mbind outcome_bind Py.bind].
  rewrite (timedelta_new_days 1 0 0) by lia.
  cbn [mbind outcome_bind Py.bind]. rewrite Ha. reflexivity.
Qed.

Lemma lunar_cycle_loop_stop (fuel : nat) (current_date end_date : datetime)
    (acc : gmap string string) :
  Datetime.leb current_date end_date = false ->
  lunar_cycle_loop fuel current_date end_date acc = Ok acc.
Proof. intros H. destruct fuel; cbn [lunar_cycle_loop]; rewrite H; reflexivity. Qed.

(** The loop, started on day [k] with [n] days left, writes those days
    and stops; it needs no more fuel than days. *)
Lemma lunar_cycle_loop_days (y m : Z) :
  1 <= y <= 9999 -> 1 <= m <= 12 -> ~ (y = 9999 /\ m = 12) ->
  forall (n : nat) (k : Z) (fuel : nat) (acc : gmap string string),
    1 <= k -> k + Z.of_nat n = _days_in_month y m + 1 -> (n <= fuel)%nat ->
    lunar_cycle_loop fuel
      (if k <=? _days_in_month y m then day_at y m k
       else day_at (next_month y m).1 (next_month y m).2 1)
      (day_at y m (_days_in_month y m)) acc
    = Ok (write_days y m (seqZ k (Z.of_nat n)) acc).
Proof.
  intros Hy Hm Hne. induction n as [| n IH]; intros k fuel acc Hk Hkn Hfuel.
  - destruct (Z.leb_spec k (_days_in_month y m)); [lia |].
    apply lunar_cycle_loop_stop, leb_next_month, Hm.
  - destruct (Z.leb_spec k (_days_in_month y m)) as [Hle |]; [| lia].
    destruct fuel as [| fuel]; [lia |].
    rewrite (lunar_cycle_loop_step fuel (day_at y m k) _
               (if k + 1 <=? _days_in_month y m then day_at y m (k + 1)
                else day_at (next_month y m).1 (next_month y m).2 1)
               (phase_bucket (normalized_phase (day_at y m k)))).
    + rewrite (IH (k + 1) fuel) by lia.
      rewrite (seqZ_cons k (Z.of_nat (S n))), write_days_cons by lia.
      assert (E1 : Z.succ k = k + 1) by lia.
      assert (E2 : Z.pred (Z.of_nat (S n)) = Z.of_nat n) by lia.
      rewrite E1, E2. reflexivity.
    + rewrite leb_same_month. apply Z.leb_le, Hle.
    + apply calculate_lunar_phase_ok, day_at_valid; lia.
    + rewrite add_one_day by lia.
      destruct (Z.ltb_spec k (_days_in_month y m)),
        (Z.leb_spec (k + 1) (_days_in_month y m)); try reflexivity; lia.
Qed.

(** What the function returns on every year and month it accepts. *)
Lemma get_lunar_cycle_for_month_ok (fuel : nat) (y m : Z) :
  1 <= y <= 9999 -> 1 <= m <= 12 -> ~ (y = 9999 /\ m = 12) ->
  (31 <= fuel)%nat ->
  get_lunar_cycle_for_month fuel y m
  = Ok (write_days y m (seqZ 1 (_days_in_month y m)) ∅).
Proof.
  intros Hy Hm Hne Hfuel.
  pose proof (days_in_month_bounds y m Hm) as Hdim.
  unfold get_lunar_cycle_for_month.
  rewrite datetime_new_ok by (apply (day_at_valid y m 1); lia).
  cbn [mbind outcome_bind Py.bind].
  change (Datetime y m 1 0 0 0 0) with (day_at y m 1).
  rewrite month_end_ok by assumption.
  cbn [mbind outcome_bind Py.bind].
  pose proof (lunar_cycle_loop_days y m Hy Hm Hne
                (Z.to_nat (_days_in_month y m)) 1 fuel ∅) as H.
  destruct (Z.leb_spec 1 (_days_in_month y m)); [| lia].
  rewrite H by lia. rewrite Z2Nat.id by lia. reflexivity.
Qed.

(** What it does on every other input but December 9999. *)
Lemma get_lunar_cycle_for_month_error (fuel : nat) (y m : Z) :
  ~ (1 <= y <= 9999 /\ 1 <= m <= 12) ->
  get_lunar_cycle_for_month fuel y m = Raise ValueError.
Proof.
  intros H. unfold get_lunar_cycle_for_month.
  rewrite datetime_new_error; [reflexivity |].
  apply not_true_is_false. intros Hv. apply valid_fields in Hv. cbn in Hv. lia.
Qed.

End MonthTable.

Section MonthTableFacts.

Lemma day_key_inj (y m d e : Z) :
  1 <= y <= 9999 -> 1 <= m <= 12 ->
  1 <= d <= _days_in_month y m -> 1 <= e <= _days_in_month y m ->
  strftime_ymd (day_at y m d) = strftime_ymd (day_at y m e) -> d = e.
Proof.
  intros Hy Hm Hd He H.
  apply strftime_ymd_inj in H; try (apply day_at_valid; assumption).
  cbn in H. lia.
Qed.

Lemma write_days_other (y m : Z) (ds : list Z) (acc : gmap string string)
    (key : string) :
  (forall d, d ∈ ds -> strftime_ymd (day_at y m d) <> key) ->
  write_days y m ds acc !! key = acc !! key.
Proof.
  revert acc. induction ds as [| d ds IH]; intros acc H; [reflexivity |].
  rewrite write_days_cons, IH.
  - apply lookup_insert_ne, H. left.
  - intros e He. apply H. right. exact He.
Qed.

Lemma write_days_lookup (y m : Z) (ds : list Z) (acc : gmap string string) (d : Z) :
  (forall e, e ∈ ds -> strftime_ymd (day_at y m e) = strftime_ymd (day_at y m d) -> e = d) ->
  d ∈ ds ->
  write_days y m ds acc !! strftime_ymd (day_at y m d)
  = Some (phase_bucket (normalized_phase (day_at y m d))).
Proof.
  revert acc. induction ds as [| e ds IH]; intros acc Hinj Hd.
  - inversion Hd.
  - rewrite write_days_cons.
    destruct (decide (d ∈ ds)) as [Hin | Hout].
    + apply IH; [| exact Hin]. intros e' He'. apply Hinj. right. exact He'.
    + assert (e = d) by (inversion Hd; subst; [reflexivity | contradiction]).
      subst e. rewrite write_days_other.
      * apply lookup_insert_eq.
      * intros e He Heq. apply Hout.
        rewrite <- (Hinj e); [exact He | right; exact He | exact Heq].
Qed.

Lemma write_days_dom (y m : Z) (ds : list Z) (acc : gmap string string) :
  dom (write_days y m ds acc)
  = list_to_set ((fun d => strftime_ymd (day_at y m d)) <$> ds) ∪ dom acc.
Proof.
  revert acc. induction ds as [| d ds IH]; intros acc.
  - cbn. rewrite (left_id_L ∅ (∪)). reflexivity.
  - rewrite write_days_cons, IH, dom_insert_L, fmap_cons, list_to_set_cons.
    rewrite (assoc_L (∪)), (comm_L (∪) (list_to_set _)). reflexivity.
Qed.

(** The table of a month: one entry for each of its days and no other. *)
Lemma month_table_entries (y m : Z) :
  1 <= y <= 9999 -> 1 <= m <= 12 ->
  let table := write_days y m (seqZ 1 (_days_in_month y m)) ∅ in
  size table = Z.to_nat (_days_in_month y m)
  /\ (forall key, is_Some (table !! key) <->
                  exists d, 1 <= d <= _days_in_month y m
                            /\ key = strftime_ymd (day_at y m d))
  /\ (forall d, 1 <= d <= _days_in_month y m ->
                table !! strftime_ymd (day_at y m d)
                = Some (phase_bucket (normalized_phase (day_at y m d)))).
Proof.
  intros Hy Hm table.
  pose proof (days_in_month_bounds y m Hm) as Hdim.
  assert (Hinj : forall d e, d ∈ seqZ 1 (_days_in_month y m) ->
                             e ∈ seqZ 1 (_days_in_month y m) ->
                 strftime_ymd (day_at y m d) = strftime_ymd (day_at y m e) -> d = e).
  { intros d e Hd He. apply elem_of_seqZ in Hd, He. apply day_key_inj; lia. }
  assert (Hdom : dom table
                 = list_to_set ((fun d => strftime_ymd (day_at y m d))
                                <$> seqZ 1 (_days_in_month y m))).
  { subst table. rewrite write_days_dom, dom_empty_L, (right_id_L ∅ (∪)). reflexivity. }
  split; [| split].
  - rewrite <- size_dom, Hdom, size_list_to_set.
    + rewrite length_fmap, length_seqZ. reflexivity.
    + apply NoDup_fmap_2_strong; [| apply NoDup_seqZ].
      intros d e Hd He. apply Hinj; assumption.
  - intros key. rewrite <- elem_of_dom, Hdom, elem_of_list_to_set, list_elem_of_fmap.
    split.
    + intros (d & -> & Hd). apply elem_of_seqZ in Hd. exists d. split; [lia | reflexivity].
    + intros (d & Hd & ->). exists d. split; [reflexivity |]. apply elem_of_seqZ. lia.
  - intros d Hd. apply write_days_lookup.
    + intros e He Heq. apply Hinj; [exact He | apply elem_of_seqZ; lia | exact Heq].
    + apply elem_of_seqZ. lia.
Qed.

End MonthTableFacts.

(* ===================================================================== *)
(** ** Bucketing observations by phase                                   *)
(* ===================================================================== *)

Section Histogram.

Lemma sum_counts_empty : sum_counts ∅ = 0.
Proof. apply map_fold_empty. Qed.

Lemma sum_counts_insert (m : gmap string Z) (k : string) (c : Z) :
  m !! k = None -> sum_counts (<[k := c]> m) = c + sum_counts m.
Proof.
  intros H. unfold sum_counts. apply map_fold_insert_L; [| exact H].
  intros. lia.
Qed.

Lemma count_at_add_count (d : gmap string Z) (k k' : string) (n : Z) :
  count_at (add_count k n d) k'
  = if decide (k = k') then count_at d k + n else count_at d k'.
Proof.
  unfold count_at, add_count. destruct (decide (k = k')) as [-> | Hne].
  - rewrite lookup_insert_eq. reflexivity.
  - rewrite lookup_insert_ne by exact Hne. reflexivity.
Qed.

Lemma label_truthy (phase : string) : phase ∈ LUNAR_PHASES -> truthy phase = true.
Proof.
  unfold LUNAR_PHASES. rewrite !elem_of_cons, elem_of_nil.
  intros H. repeat (destruct H as [-> | H]; [reflexivity |]). contradiction.
Qed.

(** The two ways an iteration of the loop can go. *)
Lemma bucket_step_present (lunar_cycle : gmap string string) (date phase : string)
    (count : Z) (phase_counts : gmap string Z) :
  lunar_cycle !! date = Some phase -> truthy phase = true ->
  bucket_step lunar_cycle date count phase_counts
  = add_count phase count phase_counts.
Proof. intros H Ht. unfold bucket_step. rewrite H, Ht. reflexivity. Qed.

Lemma bucket_step_absent (lunar_cycle : gmap string string) (date : string)
    (count : Z) (phase_counts : gmap string Z) :
  lunar_cycle !! date = None ->
  bucket_step lunar_cycle date count phase_counts = phase_counts.
Proof. intros H. unfold bucket_step. rewrite H. reflexivity. Qed.

(** Each bucket holds the counts of the observed dates the table gives
    that phase. *)
Lemma phase_counts_of_bucket (observations : gmap string Z)
    (lunar_cycle : gmap string string) (phase : string) :
  phase_table lunar_cycle ->
  count_at (phase_counts_of observations lunar_cycle) phase
  = sum_counts (with_phase lunar_cycle phase observations).
Proof.
  intros Ht. unfold phase_counts_of, with_phase.
  apply (map_fold_weak_ind
           (fun r m => count_at r phase
                       = sum_counts (filter (fun kv => lunar_cycle !! kv.1 = Some phase) m))).
  - rewrite map_filter_empty, sum_counts_empty. reflexivity.
  - intros date count m r Hnone IH.
    destruct (lunar_cycle !! date) as [p |] eqn:E.
    + rewrite (bucket_step_present _ _ p) by eauto using label_truthy.
      rewrite count_at_add_count.
      destruct (decide (p = phase)) as [-> | Hne].
      * rewrite map_filter_insert_True by exact E.
        rewrite sum_counts_insert by (apply map_lookup_filter_None; left; exact Hnone).
        lia.
      * rewrite map_filter_insert_False by (cbn; congruence).
        rewrite delete_id by exact Hnone.
        exact IH.
    + rewrite bucket_step_absent by exact E.
      rewrite map_filter_insert_False by (cbn; congruence).
      rewrite delete_id by exact Hnone.
      exact IH.
Qed.

Lemma plot_labels (observations : gmap string Z) (lunar_cycle : gmap string string) :
  (plot_observations_by_lunar_phase observations lunar_cycle).*1 = LUNAR_PHASES.
Proof. reflexivity. Qed.

Lemma plot_heights (observations : gmap string Z) (lunar_cycle : gmap string string) :
  (plot_observations_by_lunar_phase observations lunar_cycle).*2
  = count_at (phase_counts_of observations lunar_cycle) <$> LUNAR_PHASES.
Proof. reflexivity. Qed.

Lemma zip_fmap_self {A B : Type} (f : A -> B) (l : list A) :
  zip l (f <$> l) = (fun x => (x, f x)) <$> l.
Proof. induction l as [| x l IH]; [reflexivity |]. cbn. rewrite IH. reflexivity. Qed.

Lemma plot_bars (observations : gmap string Z) (lunar_cycle : gmap string string) :
  plot_observations_by_lunar_phase observations lunar_cycle
  = (fun phase => (phase, count_at (phase_counts_of observations lunar_cycle) phase))
    <$> LUNAR_PHASES.
Proof. unfold plot_observations_by_lunar_phase. apply zip_fmap_self. Qed.

(** The sum of the eight buckets, followed along the loop. *)
Lemma eight_buckets_add (r : gmap string Z) (p : string) (c : Z) :
  p ∈ LUNAR_PHASES ->
  foldr Z.add 0 (count_at (add_count p c r) <$> LUNAR_PHASES)
  = foldr Z.add 0 (count_at r <$> LUNAR_PHASES) + c.
Proof.
  unfold LUNAR_PHASES. rewrite !elem_of_cons, elem_of_nil. intros H.
  cbn [fmap list_fmap foldr]. rewrite !count_at_add_count.
  repeat (destruct H as [-> | H];
          [repeat (case_decide; [try discriminate |]); try congruence; lia |]).
  contradiction.
Qed.

Lemma eight_buckets_total (observations : gmap string Z)
    (lunar_cycle : gmap string string) :
  phase_table lunar_cycle ->
  foldr Z.add 0 (count_at (phase_counts_of observations lunar_cycle) <$> LUNAR_PHASES)
  = sum_counts (with_entry lunar_cycle observations).
Proof.
  intros Ht. unfold phase_counts_of, with_entry.
  apply (map_fold_weak_ind
           (fun r m => foldr Z.add 0 (count_at r <$> LUNAR_PHASES)
                       = sum_counts (filter (fun kv => is_Some (lunar_cycle !! kv.1)) m))).
  - rewrite map_filter_empty, sum_counts_empty. reflexivity.
  - intros date count m r Hnone IH.
    destruct (lunar_cycle !! date) as [p |] eqn:E.
    + rewrite (bucket_step_present _ _ p) by eauto using label_truthy.
      rewrite eight_buckets_add by eauto.
      rewrite map_filter_insert_True by (cbn; rewrite E; eauto).
      rewrite sum_counts_insert by (apply map_lookup_filter_None; left; exact Hnone).
      lia.
    + rewrite bucket_step_absent by exact E.
      rewrite map_filter_insert_False by (cbn; rewrite E; apply is_Some_None).
      rewrite delete_id by exact Hnone.
      exact IH.
Qed.

End Histogram.

(* ===================================================================== *)
(** ** Merging the months of a year                                      *)
(* ===================================================================== *)

Section Aggregation.

(** Lines 144 and 145 add the month's counts key by key. *)
Lemma merge_counts_lookup (acc observations : gmap string Z) (k : string) :
  map_fold add_count acc observations !! k
  = union_with (fun a c => Some (a + c)) acc observations !! k.
Proof.
  apply (map_fold_weak_ind
           (fun r m => r !! k = union_with (fun a c => Some (a + c)) acc m !! k)).
  - rewrite lookup_union_with, lookup_empty. destruct (acc !! k); reflexivity.
  - intros date count m r Hnone IH. unfold add_count.
    rewrite lookup_union_with in IH. rewrite lookup_union_with.
    destruct (decide (date = k)) as [-> | Hne].
    + rewrite !lookup_insert_eq. rewrite Hnone in IH.
      rewrite IH. destruct (acc !! k); cbn; f_equal; lia.
    + rewrite !lookup_insert_ne by exact Hne. exact IH.
Qed.

Lemma merge_counts_union (acc observations : gmap string Z) :
  map_fold add_count acc observations
  = union_with (fun a c => Some (a + c)) acc observations.
Proof. apply map_eq. intros k. apply merge_counts_lookup. Qed.

Lemma merge_counts_swap (acc o1 o2 : gmap string Z) :
  map_fold add_count (map_fold add_count acc o1) o2
  = map_fold add_count (map_fold add_count acc o2) o1.
Proof.
  rewrite !merge_counts_union. apply map_eq. intros k.
  rewrite !lookup_union_with.
  destruct (acc !! k), (o1 !! k), (o2 !! k); cbn; f_equal; lia.
Qed.

(** Two months whose tables share no date can be merged in either order. *)
Lemma merge_month_swap (acc : gmap string Z * gmap string string)
    (o1 o2 : gmap string Z) (t1 t2 : gmap string string) :
  t1 ##ₘ t2 ->
  merge_month (merge_month acc o1 t1) o2 t2
  = merge_month (merge_month acc o2 t2) o1 t1.
Proof.
  intros Hd. unfold merge_month. cbn [fst snd]. f_equal.
  - apply merge_counts_swap.
  - rewrite !map_union_assoc. f_equal. symmetry. apply map_union_comm, Hd.
Qed.

Lemma merge_all_permutation (l1 l2 : list (gmap string Z * gmap string string)) :
  l1 ≡ₚ l2 -> map_disjoint_list (l1.*2) ->
  forall acc, foldl (fun acc p => merge_month acc p.1 p.2) acc l1
              = foldl (fun acc p => merge_month acc p.1 p.2) acc l2.
Proof.
  induction 1 as [| p l1 l2 Hp IH | p q l | l1 l2 l3 Hp1 IH1 Hp2 IH2];
    intros Hd acc.
  - reflexivity.
  - cbn [foldl]. apply IH.
    rewrite fmap_cons in Hd. apply map_disjoint_list_cons in Hd as [_ Hd]. exact Hd.
  - cbn [foldl]. f_equal. apply merge_month_swap.
    rewrite !fmap_cons in Hd. apply map_disjoint_list_cons in Hd as [Hd _].
    apply Forall_cons in Hd as [Hd _]. symmetry. exact Hd.
  - rewrite IH1 by exact Hd. apply IH2.
    eapply map_disjoint_list_Permutation; [exact Hd |].
    apply fmap_Permutation, Hp1.
Qed.

Lemma aggregate_permutation (order family : list (gmap string Z * gmap string string)) :
  map_disjoint_list (family.*2) -> order ≡ₚ family ->
  aggregate order = aggregate family.
Proof.
  intros Hd Hp. unfold aggregate. symmetry.
  apply merge_all_permutation; [symmetry; exact Hp | exact Hd].
Qed.

(** The tables the program builds for two months of one year share no
    date. *)
Lemma month_tables_disjoint (y m m' : Z) :
  1 <= y <= 9999 -> 1 <= m <= 12 -> 1 <= m' <= 12 -> m <> m' ->
  write_days y m (seqZ 1 (_days_in_month y m)) ∅
  ##ₘ write_days y m' (seqZ 1 (_days_in_month y m')) ∅.
Proof.
  intros Hy Hm Hm' Hne. apply map_disjoint_spec. intros key v v' H H'.
  destruct (month_table_entries y m Hy Hm) as (_ & Hk & _).
  destruct (month_table_entries y m' Hy Hm') as (_ & Hk' & _).
  destruct (proj1 (Hk key) (mk_is_Some _ _ H)) as (d & Hd & ->).
  destruct (proj1 (Hk' _) (mk_is_Some _ _ H')) as (d' & Hd' & Heq).
  apply strftime_ymd_inj in Heq; try (apply day_at_valid; assumption).
  cbn in Heq. lia.
Qed.

End Aggregation.

(* ===================================================================== *)
(** ** Pagination                                                        *)
(* ===================================================================== *)

Section Pagination.

Variable requests_get : query -> response.

Lemma count_results_app (rs rs' : list observation) (observations : gmap string Z) :
  count_results (rs ++ rs') observations
  = count_results rs' (count_results rs observations).
Proof. apply foldl_app. Qed.

Lemma count_results_count (rs : list observation) (observations : gmap string Z)
    (day : string) :
  count_at (count_results rs observations) day
  = count_at observations day + observed_count day rs.
Proof.
  revert observations. induction rs as [| obs rs IH]; intros observations.
  - unfold observed_count. cbn. lia.
  - change (count_results (obs :: rs) observations)
      with (count_results rs (add_count (observed_on obs) 1 observations)).
    rewrite IH, count_at_add_count. unfold observed_count.
    rewrite filter_cons.
    destruct (decide (observed_on obs = day)) as [-> | Hne]; cbn [length]; lia.
Qed.

Lemma page_params_self (p : params) : page_params p (page p) = p.
Proof. destruct p. reflexivity. Qed.

Lemma pages_from_page_params (p : params) (i : Z) (n : nat) (j : Z) :
  pages_from requests_get (page_params p i) n j = pages_from requests_get p n j.
Proof.
  revert j. induction n as [| n IH]; intros j; [reflexivity |].
  cbn [pages_from]. rewrite IH. reflexivity.
Qed.

(** The loop asks for page after page while they are full, and stops at
    the first one that is short. *)
Lemma fetch_loop_short_page (n : nat) :
  forall (fuel : nat) (p : params) (observations : gmap string Z),
    0 < per_page p ->
    (forall j, 0 <= j <= Z.of_nat n -> status_ok (page_response requests_get p (page p + j)) = true) ->
    (forall j, 0 <= j < Z.of_nat n ->
               per_page p <= Z.of_nat (length (page_results requests_get p (page p + j)))) ->
    Z.of_nat (length (page_results requests_get p (page p + Z.of_nat n))) < per_page p ->
    (S n <= fuel)%nat ->
    fetch_loop requests_get fuel p observations
    = Ok (count_results (pages_from requests_get p (S n) (page p)) observations,
          page_params p (page p + Z.of_nat n)).
Proof.
  induction n as [| n IH]; intros fuel p observations Hpp Hok Hfull Hshort Hfuel;
    (destruct fuel as [| fuel]; [lia |]).
  - cbn [fetch_loop]. specialize (Hok 0 ltac:(lia)).
    unfold page_response in Hok. unfold page_results, page_response in Hshort.
    rewrite Z.add_0_r, page_params_self in *.
    unfold raise_for_status. rewrite Hok. cbn [mbind outcome_bind Py.bind].
    cbn [pages_from]. unfold page_results, page_response.
    rewrite page_params_self, app_nil_r.
    destruct (default [] (results (requests_get (PageQuery p)))) as [| r rs] eqn:E.
    + reflexivity.
    + rewrite ?E in Hshort.
      destruct (Z.ltb_spec (Z.of_nat (length (r :: rs))) (per_page p)); [| lia].
      reflexivity.
  - cbn [fetch_loop].
    pose proof (Hok 0 ltac:(lia)) as Hok0. pose proof (Hfull 0 ltac:(lia)) as Hfull0.
    unfold page_response in Hok0. unfold page_results, page_response in Hfull0.
    rewrite Z.add_0_r, page_params_self in *.
    unfold raise_for_status. rewrite Hok0. cbn [mbind outcome_bind Py.bind].
    cbn [pages_from]. unfold page_results at 1. unfold page_response.
    rewrite page_params_self.
    destruct (default [] (results (requests_get (PageQuery p)))) as [| r rs] eqn:E.
    + rewrite ?E in Hfull0. cbn [length] in Hfull0. lia.
    + rewrite ?E in Hfull0.
      destruct (Z.ltb_spec (Z.of_nat (length (r :: rs))) (per_page p)); [lia |].
      fold (page_params p (page p + 1)).
      rewrite (IH fuel (page_params p (page p + 1))).
      * rewrite count_results_app, pages_from_page_params.
        cbn [page_params page taxon_id d1 d2 per_page pages_from].
        replace (page p + 1 + Z.of_nat n) with (page p + Z.of_nat (S n)) by lia.
        reflexivity.
      * exact Hpp.
      * intros j Hj. specialize (Hok (j + 1) ltac:(lia)).
        unfold page_response, page_params in *. cbn [taxon_id d1 d2 per_page page].
        rewrite <- Hok. do 4 f_equal. lia.
      * intros j Hj. specialize (Hfull (j + 1) ltac:(lia)).
        unfold page_results, page_response, page_params in *.
        cbn [taxon_id d1 d2 per_page page].
        replace (page p + 1 + j) with (page p + (j + 1)) by lia. exact Hfull.
      * unfold page_results, page_response, page_params in *.
        cbn [taxon_id d1 d2 per_page page].
        replace (page p + 1 + Z.of_nat n) with (page p + Z.of_nat (S n)) by lia.
        exact Hshort.
      * lia.
Qed.

(** A failed request ends the loop with the error. *)
Lemma fetch_loop_http_error (fuel : nat) (p : params) (observations : gmap string Z) :
  status_ok (requests_get (PageQuery p)) = false ->
  fetch_loop requests_get (S fuel) p observations = Raise HTTPError.
Proof.
  intros H. cbn [fetch_loop]. unfold raise_for_status. rewrite H. reflexivity.
Qed.

End Pagination.

(* ===================================================================== *)
(** ** The properties of the specification                               *)
(* ===================================================================== *)

(** C1.  The bucket of a phase fraction [f] is the one the table of
    half-open intervals gives: "New Moon" iff [f < 0.03] or [0.97 <= f],
    "Waxing Crescent" iff [0.03 <= f < 0.25], "First Quarter" iff
    [0.25 <= f < 0.27], "Waxing Gibbous" iff [0.27 <= f < 0.50], "Full Moon"
    iff [0.50 <= f < 0.53], "Waning Gibbous" iff [0.53 <= f < 0.75],
    "Last Quarter" iff [0.75 <= f < 0.77], "Waning Crescent" iff
    [0.77 <= f < 0.97].  It holds for every rational [f], so in particular
    for every [f] in [[0, 1)]. *)
Theorem phase_bucket_table (f : Q) :
  (phase_bucket f = "New Moon"%string <-> (f < 3 # 100 \/ 97 # 100 <= f)%Q) /\
  (phase_bucket f = "Waxing Crescent"%string <-> (3 # 100 <= f /\ f < 25 # 100)%Q) /\
  (phase_bucket f = "First Quarter"%string <-> (25 # 100 <= f /\ f < 27 # 100)%Q) /\
  (phase_bucket f = "Waxing Gibbous"%string <-> (27 # 100 <= f /\ f < 50 # 100)%Q) /\
  (phase_bucket f = "Full Moon"%string <-> (50 # 100 <= f /\ f < 53 # 100)%Q) /\
  (phase_bucket f = "Waning Gibbous"%string <-> (53 # 100 <= f /\ f < 75 # 100)%Q) /\
  (phase_bucket f = "Last Quarter"%string <-> (75 # 100 <= f /\ f < 77 # 100)%Q) /\
  (phase_bucket f = "Waning Crescent"%string <-> (77 # 100 <= f /\ f < 97 # 100)%Q).
Proof.
  unfold phase_bucket.
  split_comparisons; simpl; order_facts;
    repeat split; intros; try discriminate; try lra;
    try (exfalso; lra).
Qed.



(** C9.  At the known new moon itself the phase fraction is zero and the
    phase is "New Moon". *)
Theorem known_new_moon_phase :
  calculate_lunar_phase known_new_moon = Ok "New Moon"%string
  /\ exists f, normalized_phase_at known_new_moon = Ok f /\ (f == 0)%Q.
Proof.
  split; [reflexivity |].
  exists (normalized_phase known_new_moon).
  split; [apply normalized_phase_at_ok; reflexivity | reflexivity].
Qed.



(** What the table of a month holds, in the terms of the specification. *)
Lemma month_table_phases (y m d : Z) :
  1 <= y <= 9999 -> 1 <= m <= 12 -> 1 <= d <= _days_in_month y m ->
  calculate_lunar_phase (day_at y m d)
  = Ok (phase_bucket (normalized_phase (day_at y m d))).
Proof. intros. apply calculate_lunar_phase_ok, day_at_valid; assumption. Qed.

(** C3, amended.  For every year in 1..9999 and every month in 1..12, other
    than December 9999, the function returns a table with exactly one entry
    for each calendar day of the month, from the first day to the last with
    no gap.  The last day is the day before the first day of the next
    month (January of the next year after December), and every value is
    the phase of that day's midnight, one of the eight labels. *)
Theorem get_lunar_cycle_for_month_days (fuel : nat) (y m : Z) :
  1 <= y <= 9999 -> 1 <= m <= 12 -> ~ (y = 9999 /\ m = 12) ->
  (31 <= fuel)%nat ->
  exists (table : gmap string string) (last : Z),
    get_lunar_cycle_for_month fuel y m = Ok table
    /\ month_end (day_at y m 1) = Ok (day_at y m last)
    /\ Datetime.add (day_at y m last) (Timedelta 1 0 0)
       = Ok (day_at (next_month y m).1 (next_month y m).2 1)
    /\ size table = Z.to_nat last
    /\ (forall key, is_Some (table !! key) <->
                    exists d, 1 <= d <= last /\ key = strftime_ymd (day_at y m d))
    /\ (forall d, 1 <= d <= last ->
                  exists phase,
                    table !! strftime_ymd (day_at y m d) = Some phase
                    /\ calculate_lunar_phase (day_at y m d) = Ok phase
                    /\ phase ∈ LUNAR_PHASES).
Proof.
  intros Hy Hm Hne Hfuel.
  pose proof (days_in_month_bounds y m Hm) as Hdim.
  destruct (month_table_entries y m Hy Hm) as (Hsize & Hkeys & Hvals).
  exists (write_days y m (seqZ 1 (_days_in_month y m)) ∅), (_days_in_month y m).
  split; [apply get_lunar_cycle_for_month_ok; assumption |].
  split; [apply month_end_ok; assumption |].
  split.
  { rewrite add_one_day by lia. rewrite Z.ltb_irrefl. reflexivity. }
  split; [exact Hsize |].
  split; [exact Hkeys |].
  intros d Hd. exists (phase_bucket (normalized_phase (day_at y m d))).
  split; [apply Hvals, Hd |].
  split; [apply month_table_phases; assumption | apply phase_bucket_label].
Qed.

Lemma get_lunar_cycle_for_month_days_witness :
  exists (table : gmap string string) (last : Z),
    get_lunar_cycle_for_month 31 2024 2 = Ok table
    /\ month_end (day_at 2024 2 1) = Ok (day_at 2024 2 last)
    /\ Datetime.add (day_at 2024 2 last) (Timedelta 1 0 0) = Ok (day_at 2024 3 1)
    /\ size table = Z.to_nat last
    /\ (forall key, is_Some (table !! key) <->
                    exists d, 1 <= d <= last /\ key = strftime_ymd (day_at 2024 2 d))
    /\ (forall d, 1 <= d <= last ->
                  exists phase,
                    table !! strftime_ymd (day_at 2024 2 d) = Some phase
                    /\ calculate_lunar_phase (day_at 2024 2 d) = Ok phase
                    /\ phase ∈ LUNAR_PHASES).
Proof.
  apply (get_lunar_cycle_for_month_days 31 2024 2); lia.
Defined.

(** C3 as stated fails: year 0 is an integer and 1 a month, and no table
    is returned for them. *)
Lemma get_lunar_cycle_for_month_year_zero :
  ~ exists (fuel : nat) (table : gmap string string),
      get_lunar_cycle_for_month fuel 0 1 = Ok table.
Proof. intros (fuel & table & H). destruct fuel; discriminate H. Qed.

(** The two tables the specification names: February of a leap year has
    29 entries, keyed 2024-02-01 to 2024-02-29, and February 2023 has 28. *)
Lemma february_2024 :
  exists table : gmap string string,
    get_lunar_cycle_for_month 31 2024 2 = Ok table
    /\ size table = 29%nat
    /\ table !! "2024-02-01"%string = Some "Waning Gibbous"%string
    /\ table !! "2024-02-29"%string = Some "Waning Gibbous"%string
    /\ (forall key, is_Some (table !! key) <->
                    exists d, 1 <= d <= 29 /\ key = strftime_ymd (day_at 2024 2 d))
    /\ map_Forall (fun _ phase => phase ∈ LUNAR_PHASES) table.
Proof.
  destruct (month_table_entries 2024 2 ltac:(lia) ltac:(lia)) as (Hsize & Hkeys & Hvals).
  exists (write_days 2024 2 (seqZ 1 (_days_in_month 2024 2)) ∅).
  split; [apply get_lunar_cycle_for_month_ok; lia |].
  split; [exact Hsize |].
  split; [vm_compute; reflexivity |].
  split; [vm_compute; reflexivity |].
  split; [exact Hkeys |].
  intros key phase H.
  destruct (proj1 (Hkeys key) (mk_is_Some _ _ H)) as (d & Hd & ->).
  rewrite (Hvals d Hd) in H. injection H as <-. apply phase_bucket_label.
Qed.

Lemma february_2023 :
  exists table : gmap string string,
    get_lunar_cycle_for_month 31 2023 2 = Ok table /\ size table = 28%nat.
Proof.
  destruct (month_table_entries 2023 2 ltac:(lia) ltac:(lia)) as (Hsize & _).
  exists (write_days 2023 2 (seqZ 1 (_days_in_month 2023 2)) ∅).
  split; [apply get_lunar_cycle_for_month_ok; lia | exact Hsize].
Qed.

(** December 9999: the step of 32 days leaves the range of dates. *)
Lemma get_lunar_cycle_for_month_last_december (fuel : nat) :
  get_lunar_cycle_for_month fuel 9999 12 = Raise OverflowError.
Proof. reflexivity. Qed.

(** C4, amended.  A month outside 1..12 is refused with [ValueError], and
    so is a year outside 1..9999.  For every year in 1..9999, before the
    known new moon as well as after it, and every month in 1..12 (December
    9999 apart) the function returns a table, and the phase it holds for a
    day is the bucket of that day's phase fraction, which lies in
    [[0, 1)]. *)
Theorem get_lunar_cycle_for_month_inputs (fuel : nat) (y m : Z) :
  (31 <= fuel)%nat ->
  (~ 1 <= m <= 12 -> get_lunar_cycle_for_month fuel y m = Raise ValueError)
  /\ (~ 1 <= y <= 9999 -> get_lunar_cycle_for_month fuel y m = Raise ValueError)
  /\ (1 <= y <= 9999 -> 1 <= m <= 12 -> ~ (y = 9999 /\ m = 12) ->
      exists table : gmap string string,
        get_lunar_cycle_for_month fuel y m = Ok table
        /\ forall d, 1 <= d <= _days_in_month y m ->
             table !! strftime_ymd (day_at y m d)
             = Some (phase_bucket (normalized_phase (day_at y m d)))
             /\ calculate_lunar_phase (day_at y m d)
                = Ok (phase_bucket (normalized_phase (day_at y m d)))
             /\ (0 <= normalized_phase (day_at y m d) < 1)%Q).
Proof.
  intros Hfuel. split; [| split].
  - intros Hm. apply get_lunar_cycle_for_month_error. tauto.
  - intros Hy. apply get_lunar_cycle_for_month_error. tauto.
  - intros Hy Hm Hne.
    destruct (month_table_entries y m Hy Hm) as (_ & _ & Hvals).
    exists (write_days y m (seqZ 1 (_days_in_month y m)) ∅).
    split; [apply get_lunar_cycle_for_month_ok; assumption |].
    intros d Hd. split; [apply Hvals, Hd |].
    split; [apply month_table_phases; assumption | apply normalized_phase_range].
Qed.

Lemma get_lunar_cycle_for_month_inputs_witness :
  get_lunar_cycle_for_month 31 2024 13 = Raise ValueError
  /\ get_lunar_cycle_for_month 31 2024 0 = Raise ValueError
  /\ exists table : gmap string string,
       get_lunar_cycle_for_month 31 1969 7 = Ok table
       /\ forall d, 1 <= d <= _days_in_month 1969 7 ->
            table !! strftime_ymd (day_at 1969 7 d)
            = Some (phase_bucket (normalized_phase (day_at 1969 7 d)))
            /\ calculate_lunar_phase (day_at 1969 7 d)
               = Ok (phase_bucket (normalized_phase (day_at 1969 7 d)))
            /\ (0 <= normalized_phase (day_at 1969 7 d) < 1)%Q.
Proof.
  split; [| split].
  - apply (proj1 (get_lunar_cycle_for_month_inputs 31 2024 13 ltac:(lia))). lia.
  - apply (proj1 (get_lunar_cycle_for_month_inputs 31 2024 0 ltac:(lia))). lia.
  - apply (proj2 (proj2 (get_lunar_cycle_for_month_inputs 31 1969 7 ltac:(lia)))); lia.
Defined.

(** C4 as stated fails: the year 44 BC, written -43, is an integer year
    before the known new moon, and March is a month; no table is returned. *)
Lemma get_lunar_cycle_for_month_negative_year :
  ~ exists (fuel : nat) (table : gmap string string),
      get_lunar_cycle_for_month fuel (-43) 3 = Ok table.
Proof. intros (fuel & table & H). destruct fuel; discriminate H. Qed.

(** The tables of the months of a list without repetition share no date. *)
Lemma month_tables_disjoint_list (y : Z) (months : list Z) :
  1 <= y <= 9999 -> NoDup months -> Forall (fun m => 1 <= m <= 12) months ->
  map_disjoint_list
    (((fun m => write_days y m (seqZ 1 (_days_in_month y m)) ∅) <$> months)
     : list (gmap string string)).
Proof.
  intros Hy Hnd Hall. induction Hnd as [| m months Hnotin Hnd IH].
  - apply map_disjoint_list_nil.
  - apply Forall_cons in Hall as [Hm Hall].
    rewrite fmap_cons. apply map_disjoint_list_cons_2; [| apply IH, Hall].
    apply Forall_fmap, Forall_forall. intros m' Hin. cbn.
    apply month_tables_disjoint; try assumption.
    + rewrite Forall_forall in Hall. apply Hall, Hin.
    + intros ->. contradiction.
Qed.

(** C5.  The twelve months of a year can be merged in any order.  Whatever
    the observation counts of each month, and with the phase table the
    program computes for each month, the accumulators after the months were
    merged in an order [order], and the chart drawn from them, are those of
    the order 1, 2, ..., 12. *)
Theorem histogram_order_independent (fuel : nat) (y : Z)
    (observations : Z -> gmap string Z) (tables : Z -> gmap string string)
    (order : list Z) :
  (forall m, 1 <= m <= 12 -> get_lunar_cycle_for_month fuel y m = Ok (tables m)) ->
  (31 <= fuel)%nat ->
  order ≡ₚ seqZ 1 12 ->
  aggregate ((fun m => (observations m, tables m)) <$> order)
  = aggregate ((fun m => (observations m, tables m)) <$> seqZ 1 12)
  /\ histogram ((fun m => (observations m, tables m)) <$> order)
     = histogram ((fun m => (observations m, tables m)) <$> seqZ 1 12).
Proof.
  intros Htables Hfuel Hperm.
  assert (Hy : 1 <= y <= 9999).
  { destruct (decide (1 <= y <= 9999)) as [H | H]; [exact H | exfalso].
    specialize (Htables 1 ltac:(lia)).
    rewrite get_lunar_cycle_for_month_error in Htables by tauto. discriminate. }
  assert (Hne : ~ y = 9999).
  { intros ->. specialize (Htables 12 ltac:(lia)).
    rewrite get_lunar_cycle_for_month_last_december in Htables. discriminate. }
  assert (Heq : forall m, 1 <= m <= 12 ->
                  tables m = write_days y m (seqZ 1 (_days_in_month y m)) ∅).
  { intros m Hm. specialize (Htables m Hm).
    rewrite get_lunar_cycle_for_month_ok in Htables by (try assumption; lia).
    congruence. }
  assert (Hagg : aggregate ((fun m => (observations m, tables m)) <$> order)
                 = aggregate ((fun m => (observations m, tables m)) <$> seqZ 1 12)).
  { apply aggregate_permutation; [| apply fmap_Permutation, Hperm].
    rewrite <- list_fmap_compose.
    rewrite (list_fmap_ext _ (fun m => write_days y m (seqZ 1 (_days_in_month y m)) ∅)
               (seqZ 1 12)).
    - apply month_tables_disjoint_list;
        [exact Hy | apply NoDup_seqZ | apply Forall_seqZ; intros; lia].
    - intros i m Hm. cbn. apply Heq.
      apply list_elem_of_lookup_2, elem_of_seqZ in Hm. lia. }
  split; [exact Hagg |]. unfold histogram. rewrite Hagg. reflexivity.
Qed.

Lemma table_2024_returned (m : Z) :
  is_ok (get_lunar_cycle_for_month 31 2024 m) = true ->
  get_lunar_cycle_for_month 31 2024 m = Ok (table_2024 m).
Proof.
  unfold table_2024. destruct (get_lunar_cycle_for_month 31 2024 m);
    [reflexivity | discriminate | discriminate].
Defined.

Lemma histogram_order_independent_witness :
  aggregate ((fun m => (observations_2024 m, table_2024 m)) <$> reverse (seqZ 1 12))
  = aggregate ((fun m => (observations_2024 m, table_2024 m)) <$> seqZ 1 12)
  /\ histogram ((fun m => (observations_2024 m, table_2024 m)) <$> reverse (seqZ 1 12))
     = histogram ((fun m => (observations_2024 m, table_2024 m)) <$> seqZ 1 12).
Proof.
  apply (histogram_order_independent 31 2024).
  - intros m Hm.
    assert (Hc : m = 1 \/ m = 2 \/ m = 3 \/ m = 4 \/ m = 5 \/ m = 6 \/ m = 7
                 \/ m = 8 \/ m = 9 \/ m = 10 \/ m = 11 \/ m = 12) by lia.
    repeat (destruct Hc as [-> | Hc];
            [apply table_2024_returned; vm_compute; reflexivity |]).
    subst m. apply table_2024_returned. vm_compute. reflexivity.
  - lia.
  - apply reverse_Permutation.
Defined.

(** C7.  With a phase table (every value one of the eight labels), an
    observed date that has an entry adds its whole count to the bucket of
    its phase, and an observed date without an entry changes nothing; so
    each bucket ends as the sum of the counts of the observed dates that
    the table gives its phase.  The loop raises nothing: its result is a
    plain value. *)
Theorem bucketing_skips_absent_dates (observations : gmap string Z)
    (lunar_cycle : gmap string string) :
  phase_table lunar_cycle ->
  (forall date phase count phase_counts,
      lunar_cycle !! date = Some phase ->
      bucket_step lunar_cycle date count phase_counts
      = add_count phase count phase_counts)
  /\ (forall date count phase_counts,
        lunar_cycle !! date = None ->
        bucket_step lunar_cycle date count phase_counts = phase_counts)
  /\ (forall phase,
        count_at (phase_counts_of observations lunar_cycle) phase
        = sum_counts (with_phase lunar_cycle phase observations)).
Proof.
  intros Ht. split; [| split].
  - intros date phase count phase_counts H.
    apply bucket_step_present; [exact H | eapply label_truthy, Ht, H].
  - intros date count phase_counts H. apply bucket_step_absent, H.
  - intros phase. apply phase_counts_of_bucket, Ht.
Qed.

Lemma example_table_phase_table : phase_table example_table.
Proof.
  intros date phase H. unfold example_table in H.
  repeat (apply lookup_insert_Some in H as [[_ <-] | [_ H]]; [set_solver |]).
  apply lookup_singleton_Some in H as [_ <-]. set_solver.
Defined.

Lemma bucketing_skips_absent_dates_witness :
  (forall date phase count phase_counts,
      example_table !! date = Some phase ->
      bucket_step example_table date count phase_counts
      = add_count phase count phase_counts)
  /\ (forall date count phase_counts,
        example_table !! date = None ->
        bucket_step example_table date count phase_counts = phase_counts)
  /\ (forall phase,
        count_at (phase_counts_of example_observations example_table) phase
        = sum_counts (with_phase example_table phase example_observations)).
Proof.
  apply (bucketing_skips_absent_dates example_observations example_table).
  exact example_table_phase_table.
Defined.

(** C10.  With a phase table, the heights of the eight bars add up to the
    sum of the counts of the observed dates that have an entry in the
    table: nothing is lost and nothing is counted twice.  Every label is a
    non-empty string, so a date is skipped exactly when the table lacks
    it.  The chart always has the eight labels in their fixed order, and a
    bucket that was never written is drawn with height zero. *)
Theorem histogram_conserves_counts (observations : gmap string Z)
    (lunar_cycle : gmap string string) :
  phase_table lunar_cycle ->
  let bars := plot_observations_by_lunar_phase observations lunar_cycle in
  bars_total bars = sum_counts (with_entry lunar_cycle observations)
  /\ bars.*1 = LUNAR_PHASES
  /\ length bars = 8%nat
  /\ Forall (fun phase => truthy phase = true) LUNAR_PHASES
  /\ (forall date count phase_counts,
        bucket_step lunar_cycle date count phase_counts
        = match lunar_cycle !! date with
          | Some phase => add_count phase count phase_counts
          | None => phase_counts
          end)
  /\ (forall phase,
        phase ∈ LUNAR_PHASES ->
        phase_counts_of observations lunar_cycle !! phase = None ->
        (phase, 0) ∈ bars).
Proof.
  intros Ht bars. split; [| split; [| split; [| split; [| split]]]].
  - unfold bars_total. subst bars. rewrite plot_heights.
    apply eight_buckets_total, Ht.
  - reflexivity.
  - reflexivity.
  - apply Forall_forall. intros phase. apply label_truthy.
  - intros date count phase_counts.
    destruct (lunar_cycle !! date) as [p |] eqn:E.
    + apply bucket_step_present; [exact E | eapply label_truthy, Ht, E].
    + apply bucket_step_absent, E.
  - intros phase Hin Hnone. subst bars. rewrite plot_bars.
    apply list_elem_of_fmap. exists phase. split; [| exact Hin].
    unfold count_at. rewrite Hnone. reflexivity.
Qed.

Lemma histogram_conserves_counts_witness :
  let bars := plot_observations_by_lunar_phase example_observations example_table in
  bars_total bars = sum_counts (with_entry example_table example_observations)
  /\ bars.*1 = LUNAR_PHASES
  /\ length bars = 8%nat
  /\ Forall (fun phase => truthy phase = true) LUNAR_PHASES
  /\ (forall date count phase_counts,
        bucket_step example_table date count phase_counts
        = match example_table !! date with
          | Some phase => add_count phase count phase_counts
          | None => phase_counts
          end)
  /\ (forall phase,
        phase ∈ LUNAR_PHASES ->
        phase_counts_of example_observations example_table !! phase = None ->
        (phase, 0) ∈ bars).
Proof.
  apply (histogram_conserves_counts example_observations example_table).
  exact example_table_phase_table.
Defined.

(** The chart of the example: the counts of the two dates of the table in
    the buckets of their phases, zero elsewhere, the third date skipped. *)
Lemma example_chart :
  plot_observations_by_lunar_phase example_observations example_table
  = [ ("New Moon", 3); ("Waxing Crescent", 0); ("First Quarter", 0);
      ("Waxing Gibbous", 5); ("Full Moon", 0); ("Waning Gibbous", 0);
      ("Last Quarter", 0); ("Waning Crescent", 0) ]%string.
Proof. vm_compute. reflexivity. Qed.

(** A table with an empty string for a phase is not a phase table, and
    its date is skipped although it has an entry. *)
Lemma empty_label_is_skipped :
  plot_observations_by_lunar_phase {[ "d"%string := 4 ]} {[ "d"%string := ""%string ]}
  = (fun phase => (phase, 0)) <$> LUNAR_PHASES.
Proof. vm_compute. reflexivity. Qed.

(** C8.  Take any service whose requests succeed and whose pages 1 to [n]
    are full (at least 200 results) and whose page [n + 1] is short (fewer
    than 200 results, possibly none).  Then the function returns, given
    [n + 1] turns of fuel or more; the loop is left with [page] equal to
    [n + 1], the short page, and no later page was asked for; and the count
    returned for a day is the number of results observed on that day in
    pages 1 to [n + 1] together. *)
Theorem pagination_stops_at_short_page (requests_get : query -> response)
    (fuel : nat) (taxon year month : Z) (start_date end_date : string) (n : nat) :
  let p := QueryParams taxon start_date end_date 200 1 in
  query_range year month = Ok (start_date, end_date) ->
  (forall j, 0 <= j <= Z.of_nat n ->
             status_ok (page_response requests_get p (1 + j)) = true) ->
  (forall j, 0 <= j < Z.of_nat n ->
             200 <= Z.of_nat (length (page_results requests_get p (1 + j)))) ->
  Z.of_nat (length (page_results requests_get p (1 + Z.of_nat n))) < 200 ->
  (S n <= fuel)%nat ->
  exists counts : gmap string Z,
    get_inaturalist_daily_observations requests_get fuel taxon year month = Ok counts
    /\ fetch_loop requests_get fuel p ∅ = Ok (counts, page_params p (1 + Z.of_nat n))
    /\ forall day, count_at counts day
                   = observed_count day (pages_from requests_get p (S n) 1).
Proof.
  intros p Hrange Hok Hfull Hshort Hfuel.
  pose proof (fetch_loop_short_page requests_get n fuel p ∅) as Hloop.
  cbn [per_page page p] in Hloop. subst p.
  specialize (Hloop ltac:(lia) Hok Hfull Hshort Hfuel).
  eexists. split; [| split; [exact Hloop |]].
  - unfold get_inaturalist_daily_observations. rewrite Hrange.
    cbn [mbind outcome_bind Py.bind]. rewrite Hloop. reflexivity.
  - intros day. rewrite count_results_count. unfold count_at.
    rewrite lookup_empty. cbn [default]. lia.
Qed.

Lemma pagination_stops_at_short_page_witness :
  let p := QueryParams 47219 "2024-02-01" "2024-02-29" 200 1 in
  exists counts : gmap string Z,
    get_inaturalist_daily_observations example_service 3 47219 2024 2 = Ok counts
    /\ fetch_loop example_service 3 p ∅ = Ok (counts, page_params p 3)
    /\ forall day, count_at counts day
                   = observed_count day (pages_from example_service p 3 1).
Proof.
  apply (pagination_stops_at_short_page example_service 3 47219 2024 2
           "2024-02-01" "2024-02-29" 2).
  - vm_compute. reflexivity.
  - intros j Hj. assert (Hc : j = 0 \/ j = 1 \/ j = 2) by lia.
    destruct Hc as [-> | [-> | ->]]; reflexivity.
  - intros j Hj. assert (Hc : j = 0 \/ j = 1) by lia.
    destruct Hc as [-> | ->]; vm_compute; discriminate.
  - vm_compute. reflexivity.
  - lia.
Defined.

(** The months of the year, as [main] merges them: when each call of a
    month returns, the accumulators are those of [aggregate]. *)
Lemma main_loop_aggregate (requests_get : query -> response) (fuel : nat)
    (taxon year : Z) (observations : Z -> gmap string Z)
    (tables : Z -> gmap string string) (months : list Z) :
  (forall m, m ∈ months ->
     get_inaturalist_daily_observations requests_get fuel taxon year m
     = Ok (observations m)
     /\ returns (get_taxon_name requests_get taxon)
     /\ get_lunar_cycle_for_month fuel year m = Ok (tables m)) ->
  forall acc,
    main_loop requests_get fuel taxon year months acc
    = Ok (foldl (fun acc p => merge_month acc p.1 p.2) acc
            ((fun m => (observations m, tables m)) <$> months)).
Proof.
  induction months as [| m months IH]; intros H acc; [reflexivity |].
  destruct (H m ltac:(left)) as (Ho & [name Hn] & Ht).
  cbn [main_loop]. rewrite Ho, Hn, Ht. cbn [mbind outcome_bind Py.bind].
  rewrite IH by (intros m' Hm'; apply H; right; exact Hm').
  reflexivity.
Qed.

(* ===================================================================== *)
(** ** More on the pagination loop                                       *)
(* ===================================================================== *)

Section PaginationMore.

Variable requests_get : query -> response.

(** A full page that is not the last one sends the loop to the next page. *)
Lemma fetch_loop_full_page (fuel : nat) (p : params) (observations : gmap string Z) :
  0 < per_page p ->
  status_ok (page_response requests_get p (page p)) = true ->
  per_page p <= Z.of_nat (length (page_results requests_get p (page p))) ->
  fetch_loop requests_get (S fuel) p observations
  = fetch_loop requests_get fuel (page_params p (page p + 1))
      (count_results (page_results requests_get p (page p)) observations).
Proof.
  intros Hpp Hok Hfull. cbn [fetch_loop].
  unfold page_response in Hok. unfold page_results, page_response in *.
  rewrite page_params_self in *.
  unfold raise_for_status. rewrite Hok. cbn [mbind outcome_bind Py.bind].
  destruct (default [] (results (requests_get (PageQuery p)))) as [| r rs] eqn:E.
  - cbn [length] in Hfull. lia.
  - destruct (Z.ltb_spec (Z.of_nat (length (r :: rs))) (per_page p)); [lia |].
    reflexivity.
Qed.

(** While the pages are full the loop goes on: [n] full pages use up [n]
    turns of fuel. *)
Lemma fetch_loop_full_pages (n : nat) :
  forall (fuel : nat) (p : params) (observations : gmap string Z),
    0 < per_page p ->
    (forall j, 0 <= j < Z.of_nat n ->
               status_ok (page_response requests_get p (page p + j)) = true
               /\ per_page p
                  <= Z.of_nat (length (page_results requests_get p (page p + j)))) ->
    fetch_loop requests_get (n + fuel) p observations
    = fetch_loop requests_get fuel (page_params p (page p + Z.of_nat n))
        (count_results (pages_from requests_get p n (page p)) observations).
Proof.
  induction n as [| n IH]; intros fuel p observations Hpp Hfull.
  - cbn [pages_from Nat.add count_results foldl]. rewrite Z.add_0_r, page_params_self.
    reflexivity.
  - destruct (Hfull 0 ltac:(lia)) as [Hok0 Hfull0]. rewrite Z.add_0_r in Hok0, Hfull0.
    change (S n + fuel)%nat with (S (n + fuel)).
    rewrite fetch_loop_full_page by assumption.
    rewrite (IH fuel (page_params p (page p + 1))).
    + cbn [pages_from]. rewrite count_results_app, pages_from_page_params.
      cbn [page_params page taxon_id d1 d2 per_page].
      replace (page p + 1 + Z.of_nat n) with (page p + Z.of_nat (S n)) by lia.
      reflexivity.
    + exact Hpp.
    + intros j Hj. specialize (Hfull (j + 1) ltac:(lia)).
      unfold page_results, page_response, page_params in *.
      cbn [taxon_id d1 d2 per_page page].
      replace (page p + 1 + j) with (page p + (j + 1)) by lia. exact Hfull.
Qed.

End PaginationMore.

Section CountsOfResults.

Lemma sum_counts_insert_any (m : gmap string Z) (k : string) (v : Z) :
  sum_counts (<[k := v]> m) = v + sum_counts m - count_at m k.
Proof.
  unfold count_at. destruct (m !! k) as [c |] eqn:E; cbn [default from_option id].
  - assert (H1 : sum_counts m = c + sum_counts (delete k m)).
    { rewrite <- (sum_counts_insert (delete k m) k c) by apply lookup_delete_eq.
      rewrite insert_delete_eq, insert_id by exact E. reflexivity. }
    assert (H2 : sum_counts (<[k := v]> m) = v + sum_counts (delete k m)).
    { rewrite <- (sum_counts_insert (delete k m) k v) by apply lookup_delete_eq.
      rewrite insert_delete_eq. reflexivity. }
    lia.
  - rewrite sum_counts_insert by exact E. lia.
Qed.

Lemma sum_counts_count_results (rs : list observation) (observations : gmap string Z) :
  sum_counts (count_results rs observations)
  = sum_counts observations + Z.of_nat (length rs).
Proof.
  revert observations. induction rs as [| obs rs IH]; intros observations.
  - cbn. lia.
  - change (count_results (obs :: rs) observations)
      with (count_results rs (add_count (observed_on obs) 1 observations)).
    rewrite IH. unfold add_count. rewrite sum_counts_insert_any.
    unfold count_at. cbn [length]. lia.
Qed.

Lemma count_results_is_Some (rs : list observation) (observations : gmap string Z)
    (day : string) :
  is_Some (count_results rs observations !! day)
  <-> is_Some (observations !! day) \/ exists obs, obs ∈ rs /\ observed_on obs = day.
Proof.
  revert observations. induction rs as [| obs rs IH]; intros observations.
  - cbn. split; [auto |]. intros [H | (obs & H & _)]; [exact H | inversion H].
  - change (count_results (obs :: rs) observations)
      with (count_results rs (add_count (observed_on obs) 1 observations)).
    rewrite IH. unfold add_count. rewrite lookup_insert_is_Some.
    split.
    + intros [[Heq | [_ H]] | (o & Ho & Heq)].
      * right. exists obs. split; [left | exact Heq].
      * left. exact H.
      * right. exists o. split; [right; exact Ho | exact Heq].
    + intros [H | (o & Ho & Heq)].
      * destruct (decide (observed_on obs = day)); [left; left; assumption |].
        left. right. split; assumption.
      * apply elem_of_cons in Ho as [-> | Ho].
        -- left. left. exact Heq.
        -- right. exists o. split; assumption.
Qed.

Lemma observed_count_pos (day : string) (rs : list observation) :
  (exists obs, obs ∈ rs /\ observed_on obs = day) -> 0 < observed_count day rs.
Proof.
  intros (obs & Hin & Heq). unfold observed_count.
  assert (H : obs ∈ filter (fun o => observed_on o = day) rs)
    by (apply list_elem_of_filter; split; assumption).
  destruct (filter _ rs); [inversion H | cbn [length]; lia].
Qed.

End CountsOfResults.

(* ===================================================================== *)
(** ** Further properties of get_inaturalist_daily_observations          *)
(* ===================================================================== *)

(** X1.  For a year written with four digits and a month of 1..12
    (December 9999 apart) the function queries the whole month: it runs the
    pagination loop from page 1, with 200 results to a page, no counts yet,
    [d1] the first day of the month and [d2] its last day, and returns the
    counts the loop ends with. *)
Theorem daily_observations_query (requests_get : query -> response)
    (fuel : nat) (taxon y m : Z) :
  1000 <= y <= 9999 -> 1 <= m <= 12 -> ~ (y = 9999 /\ m = 12) ->
  get_inaturalist_daily_observations requests_get fuel taxon y m
  = (r ← fetch_loop requests_get fuel
           (QueryParams taxon (strftime_ymd (day_at y m 1))
              (strftime_ymd (day_at y m (_days_in_month y m))) 200 1) ∅;
     mret r.1).
Proof.
  intros Hy Hm Hne. unfold get_inaturalist_daily_observations, query_range.
  unfold in_range.
  destruct (Z.leb_spec 1000 y), (Z.leb_spec y 9999), (Z.leb_spec 1 m),
    (Z.leb_spec m 12); try lia.
  cbn [andb]. change (Datetime y m 1 0 0 0 0) with (day_at y m 1).
  rewrite month_end_ok by lia. cbn [mbind outcome_bind Py.bind mret outcome_ret].
  destruct (fetch_loop _ _ _ _) as [[observations p] | e |]; reflexivity.
Qed.

Lemma daily_observations_query_witness :
  get_inaturalist_daily_observations example_service 3 47219 2023 12
  = (r ← fetch_loop example_service 3
           (QueryParams 47219 "2023-12-01" "2023-12-31" 200 1) ∅;
     mret r.1).
Proof. apply (daily_observations_query example_service 3 47219 2023 12); lia. Defined.

(** X2.  A failed request ends the fetch with [HTTPError] and nothing is
    returned, whatever the pages before it held: if pages 1 to [n] are full
    and the request for page [n + 1] fails, the function raises. *)
Theorem daily_observations_http_error (requests_get : query -> response)
    (fuel : nat) (taxon year month : Z) (start_date end_date : string) (n : nat) :
  let p := QueryParams taxon start_date end_date 200 1 in
  query_range year month = Ok (start_date, end_date) ->
  (forall j, 0 <= j < Z.of_nat n ->
             status_ok (page_response requests_get p (1 + j)) = true
             /\ 200 <= Z.of_nat (length (page_results requests_get p (1 + j)))) ->
  status_ok (page_response requests_get p (1 + Z.of_nat n)) = false ->
  (S n <= fuel)%nat ->
  get_inaturalist_daily_observations requests_get fuel taxon year month
  = Raise HTTPError.
Proof.
  intros p Hrange Hfull Hfail Hfuel.
  unfold get_inaturalist_daily_observations. rewrite Hrange.
  cbn [mbind outcome_bind Py.bind]. fold p.
  replace fuel with (n + S (fuel - S n))%nat by lia.
  rewrite (fetch_loop_full_pages requests_get n) by (cbn; first [lia | exact Hfull]).
  rewrite fetch_loop_http_error; [reflexivity |]. exact Hfail.
Qed.

Lemma daily_observations_http_error_witness :
  get_inaturalist_daily_observations failing_service 5 47219 2024 2 = Raise HTTPError.
Proof.
  apply (daily_observations_http_error failing_service 5 47219 2024 2
           "2024-02-01" "2024-02-29" 1).
  - vm_compute. reflexivity.
  - intros j Hj. assert (j = 0) as -> by lia. split; [reflexivity |].
    vm_compute. discriminate.
  - reflexivity.
  - lia.
Defined.

(** X3.  The loop has no other exit than a short page or a failed request:
    on a service whose pages are all full it never returns, however many
    turns it is given. *)
Theorem daily_observations_never_ends (requests_get : query -> response)
    (fuel : nat) (taxon year month : Z) (start_date end_date : string) :
  let p := QueryParams taxon start_date end_date 200 1 in
  query_range year month = Ok (start_date, end_date) ->
  (forall j, 0 <= j ->
             status_ok (page_response requests_get p (1 + j)) = true
             /\ 200 <= Z.of_nat (length (page_results requests_get p (1 + j)))) ->
  get_inaturalist_daily_observations requests_get fuel taxon year month = OutOfFuel.
Proof.
  intros p Hrange Hfull.
  unfold get_inaturalist_daily_observations. rewrite Hrange.
  cbn [mbind outcome_bind Py.bind]. fold p.
  replace fuel with (fuel + 0)%nat by lia.
  rewrite (fetch_loop_full_pages requests_get fuel)
    by (cbn; first [lia | intros j Hj; apply Hfull; lia]).
  reflexivity.
Qed.

Lemma daily_observations_never_ends_witness :
  get_inaturalist_daily_observations endless_service 1000 47219 2024 2 = OutOfFuel.
Proof.
  apply (daily_observations_never_ends endless_service 1000 47219 2024 2
           "2024-02-01" "2024-02-29").
  - vm_compute. reflexivity.
  - intros j Hj. split; [reflexivity | vm_compute; discriminate].
Defined.

(** X4.  The dictionary returned has a key for exactly the days that occur
    in the results of the pages read, each with a count of at least one,
    and its counts add up to the number of those results. *)
Theorem daily_observations_counts (requests_get : query -> response)
    (fuel : nat) (taxon year month : Z) (start_date end_date : string) (n : nat) :
  let p := QueryParams taxon start_date end_date 200 1 in
  let rs := pages_from requests_get p (S n) 1 in
  query_range year month = Ok (start_date, end_date) ->
  (forall j, 0 <= j <= Z.of_nat n ->
             status_ok (page_response requests_get p (1 + j)) = true) ->
  (forall j, 0 <= j < Z.of_nat n ->
             200 <= Z.of_nat (length (page_results requests_get p (1 + j)))) ->
  Z.of_nat (length (page_results requests_get p (1 + Z.of_nat n))) < 200 ->
  (S n <= fuel)%nat ->
  exists counts : gmap string Z,
    get_inaturalist_daily_observations requests_get fuel taxon year month = Ok counts
    /\ sum_counts counts = Z.of_nat (length rs)
    /\ (forall day, is_Some (counts !! day)
                    <-> exists obs, obs ∈ rs /\ observed_on obs = day)
    /\ (forall day c, counts !! day = Some c -> 1 <= c).
Proof.
  intros p rs Hrange Hok Hfull Hshort Hfuel.
  pose proof (fetch_loop_short_page requests_get n fuel p ∅) as Hloop.
  cbn [per_page page p] in Hloop.
  specialize (Hloop ltac:(lia) Hok Hfull Hshort Hfuel). fold rs in Hloop.
  exists (count_results rs ∅). split; [| split; [| split]].
  - unfold get_inaturalist_daily_observations. rewrite Hrange.
    cbn [mbind outcome_bind Py.bind]. fold p. rewrite Hloop. reflexivity.
  - rewrite sum_counts_count_results, sum_counts_empty. lia.
  - intros day. rewrite count_results_is_Some, lookup_empty.
    split; [intros [[x Hx] | H]; [discriminate | exact H] | auto].
  - intros day c Hc.
    assert (Hs : is_Some (count_results rs ∅ !! day)) by eauto.
    apply count_results_is_Some in Hs as [[x Hx] | Hs];
      [rewrite lookup_empty in Hx; discriminate |].
    pose proof (observed_count_pos day rs Hs) as Hpos.
    pose proof (count_results_count rs ∅ day) as Hcount.
    unfold count_at in Hcount. rewrite Hc, lookup_empty in Hcount.
    cbn [default from_option id] in Hcount. lia.
Qed.

Lemma daily_observations_counts_witness :
  let p := QueryParams 47219 "2024-02-01" "2024-02-29" 200 1 in
  let rs := pages_from example_service p 3 1 in
  exists counts : gmap string Z,
    get_inaturalist_daily_observations example_service 3 47219 2024 2 = Ok counts
    /\ sum_counts counts = Z.of_nat (length rs)
    /\ (forall day, is_Some (counts !! day)
                    <-> exists obs, obs ∈ rs /\ observed_on obs = day)
    /\ (forall day c, counts !! day = Some c -> 1 <= c).
Proof.
  apply (daily_observations_counts example_service 3 47219 2024 2
           "2024-02-01" "2024-02-29" 2).
  - vm_compute. reflexivity.
  - intros j Hj. assert (Hc : j = 0 \/ j = 1 \/ j = 2) by lia.
    destruct Hc as [-> | [-> | ->]]; reflexivity.
  - intros j Hj. assert (Hc : j = 0 \/ j = 1) by lia.
    destruct Hc as [-> | ->]; vm_compute; discriminate.
  - vm_compute. reflexivity.
  - lia.
Defined.

(* ===================================================================== *)
(** ** Further properties of calculate_lunar_phase                       *)
(* ===================================================================== *)

Section PhaseMore.

Lemma mod_add_periods (x y : Q) (k : Z) :
  (0 < y)%Q -> (Float.mod_ (x + inject_Z k * y) y == Float.mod_ x y)%Q.
Proof.
  intros Hy. rewrite !mod_floor by exact Hy.
  assert (Hf : Qfloor ((x + inject_Z k * y) / y) = (Qfloor (x / y) + k)%Z).
  { apply floor_unique.
    assert (Hq : ((x + inject_Z k * y) / y == x / y + inject_Z k)%Q) by (field; lra).
    rewrite Hq.
    pose proof (Qfloor_le (x / y)). pose proof (Qlt_floor (x / y)).
    rewrite !inject_Z_plus in *. change (inject_Z 1) with 1%Q in *. lra. }
  rewrite Hf, inject_Z_plus. ring.
Qed.

Lemma normalized_phase_periods (t t' : datetime) (k : Z) :
  to_microseconds t' = to_microseconds t + k * 2551442861088 ->
  (normalized_phase t' == normalized_phase t)%Q.
Proof.
  intros H. unfold normalized_phase.
  assert (He : (elapsed_days t'
                == elapsed_days t + inject_Z k * lunar_cycle_days)%Q).
  { unfold elapsed_days. rewrite H.
    replace (to_microseconds t + k * 2551442861088 - to_microseconds known_new_moon)
      with ((to_microseconds t - to_microseconds known_new_moon) + k * 2551442861088)
      by lia.
    rewrite inject_Z_plus, inject_Z_mult.
    set (e := inject_Z (to_microseconds t - to_microseconds known_new_moon)).
    unfold lunar_cycle_days.
    assert (Hc : (inject_Z 2551442861088 / inject_Z 1000000 / inject_Z 86400
                  == 2953058867 # 100000000)%Q) by reflexivity.
    rewrite <- Hc. field. }
  rewrite <- (mod_add_periods (elapsed_days t) _ k lunar_cycle_days_pos).
  rewrite !mod_floor by exact lunar_cycle_days_pos.
  assert (Hf : Qfloor (elapsed_days t' / lunar_cycle_days)
               = Qfloor ((elapsed_days t + inject_Z k * lunar_cycle_days)
                         / lunar_cycle_days))
    by (rewrite He; reflexivity).
  rewrite Hf. unfold Qdiv at 1 3.
  apply Qmult_comp; [| reflexivity].
  set (c := (inject_Z (Qfloor _) * _)%Q). lra.
Qed.

(** The fraction of an instant less than 0.03 periods away from the known
    new moon, on either side. *)
Lemma normalized_phase_near_new_moon (t : datetime) :
  (- ((3 # 100) * lunar_cycle_days) < elapsed_days t < (3 # 100) * lunar_cycle_days)%Q ->
  (normalized_phase t < 3 # 100 \/ 97 # 100 <= normalized_phase t)%Q.
Proof.
  intros [Hlo Hhi]. unfold normalized_phase.
  pose proof lunar_cycle_days_pos as Hp.
  rewrite (mod_floor _ _ Hp).
  set (e := elapsed_days t) in *. set (p := lunar_cycle_days) in *.
  assert (Hep : (e == (e / p) * p)%Q) by (field; lra).
  destruct (Qlt_le_dec e 0) as [Hneg | Hpos].
  - right.
    assert (Hf : Qfloor (e / p) = (-1)%Z).
    { apply floor_unique. change (inject_Z (-1)) with (- (1))%Q.
      change (inject_Z (-1 + 1)) with 0%Q.
      split.
      - apply Qle_shift_div_l; [exact Hp | lra].
      - apply Qlt_shift_div_r; [exact Hp | lra]. }
    rewrite Hf. change (inject_Z (-1)) with (- (1))%Q.
    apply Qle_shift_div_l; [exact Hp | lra].
  - left.
    assert (Hf : Qfloor (e / p) = 0%Z).
    { apply floor_unique. change (inject_Z 0) with 0%Q.
      change (inject_Z (0 + 1)) with 1%Q.
      split.
      - apply Qle_shift_div_l; [exact Hp | lra].
      - apply Qlt_shift_div_r; [exact Hp | lra]. }
    rewrite Hf. change (inject_Z 0) with 0%Q.
    apply Qlt_shift_div_r; [exact Hp | lra].
Qed.

Lemma phase_bucket_new_moon (f : Q) :
  (f < 3 # 100 \/ 97 # 100 <= f)%Q -> phase_bucket f = "New Moon"%string.
Proof.
  intros H. unfold phase_bucket.
  destruct (Float.ltb f (3 # 100)) eqn:E1; [reflexivity |].
  destruct (Float.geb f (97 # 100)) eqn:E2; [reflexivity |].
  order_facts. exfalso. lra.
Qed.

(** Between 0.03 and 0.97 the bucket of a fraction is the label at a
    position of the chart that tells between which boundaries it lies. *)
Lemma phase_bucket_position (f : Q) :
  (3 # 100 <= f)%Q -> (f < 97 # 100)%Q ->
  exists i : nat,
    LUNAR_PHASES !! i = Some (phase_bucket f)
    /\ ((i = 1%nat /\ f < 25 # 100) \/ (i = 2%nat /\ 25 # 100 <= f < 27 # 100)
        \/ (i = 3%nat /\ 27 # 100 <= f < 50 # 100)
        \/ (i = 4%nat /\ 50 # 100 <= f < 53 # 100)
        \/ (i = 5%nat /\ 53 # 100 <= f < 75 # 100)
        \/ (i = 6%nat /\ 75 # 100 <= f < 77 # 100)
        \/ (i = 7%nat /\ 77 # 100 <= f))%Q.
Proof.
  intros Hlo Hhi. unfold phase_bucket.
  assert (E1 : Float.ltb f (3 # 100) = false) by (apply ltb_ge; exact Hlo).
  assert (E2 : Float.geb f (97 # 100) = false) by (apply geb_lt; exact Hhi).
  rewrite E1, E2. cbn [orb].
  destruct (Float.ltb f (25 # 100)) eqn:E3;
    [order_facts; exists 1%nat; split; [reflexivity | tauto] |].
  destruct (Float.ltb f (27 # 100)) eqn:E4;
    [order_facts; exists 2%nat; split; [reflexivity | tauto] |].
  destruct (Float.ltb f (50 # 100)) eqn:E5;
    [order_facts; exists 3%nat; split; [reflexivity | tauto] |].
  destruct (Float.ltb f (53 # 100)) eqn:E6;
    [order_facts; exists 4%nat; split; [reflexivity | tauto] |].
  destruct (Float.ltb f (75 # 100)) eqn:E7;
    [order_facts; exists 5%nat; split; [reflexivity | tauto] |].
  destruct (Float.ltb f (77 # 100)) eqn:E8;
    [order_facts; exists 6%nat; split; [reflexivity | tauto] |].
  order_facts. exists 7%nat. split; [reflexivity | tauto].
Qed.

End PhaseMore.



(** X6.  Every representable instant less than 0.03 periods (about 21
    hours) away from the known new moon, before it or after it, is a
    "New Moon". *)
Theorem new_moon_around_known_new_moon (t : datetime) :
  valid t = true ->
  (- ((3 # 100) * lunar_cycle_days) < elapsed_days t < (3 # 100) * lunar_cycle_days)%Q ->
  calculate_lunar_phase t = Ok "New Moon"%string.
Proof.
  intros Hv H. rewrite (calculate_lunar_phase_ok t Hv). f_equal.
  apply phase_bucket_new_moon, normalized_phase_near_new_moon, H.
Qed.

Lemma new_moon_around_known_new_moon_witness :
  calculate_lunar_phase (Datetime 2000 1 6 0 0 0 0) = Ok "New Moon"%string.
Proof.
  apply (new_moon_around_known_new_moon (Datetime 2000 1 6 0 0 0 0)).
  - reflexivity.
  - split; reflexivity.
Defined.

(** X7.  The boundaries come in the order of the chart: as the fraction
    grows from 0.03 to 0.97 the label only moves forward in [LUNAR_PHASES],
    from "Waxing Crescent" to "Waning Crescent". *)
Theorem phases_follow_chart_order (f g : Q) :
  (3 # 100 <= f)%Q -> (f <= g)%Q -> (g < 97 # 100)%Q ->
  exists i j : nat,
    (1 <= i <= j)%nat
    /\ LUNAR_PHASES !! i = Some (phase_bucket f)
    /\ LUNAR_PHASES !! j = Some (phase_bucket g).
Proof.
  intros Hf Hfg Hg.
  destruct (phase_bucket_position f Hf ltac:(lra)) as (i & Hi & Hci).
  destruct (phase_bucket_position g ltac:(lra) Hg) as (j & Hj & Hcj).
  exists i, j. split; [| split; assumption].
  destruct Hci as [[? ?] | [[? ?] | [[? ?] | [[? ?] | [[? ?] | [[? ?] | [? ?]]]]]]];
    destruct Hcj as [[? ?] | [[? ?] | [[? ?] | [[? ?] | [[? ?] | [[? ?] | [? ?]]]]]]];
    subst i j; try lia; exfalso;
    repeat match goal with H : (_ /\ _)%Q |- _ => destruct H end; lra.
Qed.

Lemma phases_follow_chart_order_witness :
  exists i j : nat,
    (1 <= i <= j)%nat
    /\ LUNAR_PHASES !! i = Some (phase_bucket (26 # 100))
    /\ LUNAR_PHASES !! j = Some (phase_bucket (6 # 10)).
Proof.
  apply (phases_follow_chart_order (26 # 100) (6 # 10)); reflexivity || discriminate.
Defined.

(* ===================================================================== *)
(** ** Further properties of get_lunar_cycle_for_month                   *)
(* ===================================================================== *)

Section MonthTableMore.

(** What a returned table tells about the arguments. *)
Lemma get_lunar_cycle_for_month_inv (fuel : nat) (y m : Z) (table : gmap string string) :
  (31 <= fuel)%nat ->
  get_lunar_cycle_for_month fuel y m = Ok table ->
  (1 <= y <= 9999 /\ 1 <= m <= 12 /\ ~ (y = 9999 /\ m = 12))
  /\ table = write_days y m (seqZ 1 (_days_in_month y m)) ∅.
Proof.
  intros Hfuel H.
  destruct (decide (1 <= y <= 9999 /\ 1 <= m <= 12)) as [[Hy Hm] | Hout].
  - destruct (decide (y = 9999 /\ m = 12)) as [[-> ->] | Hne].
    + rewrite get_lunar_cycle_for_month_last_december in H. discriminate.
    + rewrite get_lunar_cycle_for_month_ok in H by assumption.
      injection H as <-. repeat split; lia.
  - rewrite get_lunar_cycle_for_month_error in H by exact Hout. discriminate.
Qed.

(** The tables of two different months, of one year or of two, share no
    date. *)
Lemma month_tables_disjoint_years (y m y' m' : Z) :
  1 <= y <= 9999 -> 1 <= m <= 12 -> 1 <= y' <= 9999 -> 1 <= m' <= 12 ->
  (y, m) <> (y', m') ->
  write_days y m (seqZ 1 (_days_in_month y m)) ∅
  ##ₘ write_days y' m' (seqZ 1 (_days_in_month y' m')) ∅.
Proof.
  intros Hy Hm Hy' Hm' Hne. apply map_disjoint_spec. intros key v v' H H'.
  destruct (month_table_entries y m Hy Hm) as (_ & Hk & _).
  destruct (month_table_entries y' m' Hy' Hm') as (_ & Hk' & _).
  destruct (proj1 (Hk key) (mk_is_Some _ _ H)) as (d & Hd & ->).
  destruct (proj1 (Hk' _) (mk_is_Some _ _ H')) as (d' & Hd' & Heq).
  apply strftime_ymd_inj in Heq; try (apply day_at_valid; assumption).
  cbn in Heq. apply Hne. f_equal; lia.
Qed.

(** The second accumulator of [main] is the union of the tables merged. *)
Lemma merged_tables (pairs : list (gmap string Z * gmap string string))
    (acc : gmap string Z * gmap string string) :
  (foldl (fun acc p => merge_month acc p.1 p.2) acc pairs).2
  = foldl (fun all t => t ∪ all) acc.2 (pairs.*2).
Proof.
  revert acc. induction pairs as [| p pairs IH]; intros acc; [reflexivity |].
  cbn [foldl fmap list_fmap]. rewrite IH. reflexivity.
Qed.

Lemma union_all_lookup (ts : list (gmap string string)) (all : gmap string string)
    (key : string) :
  is_Some (foldl (fun all t => t ∪ all) all ts !! key)
  <-> is_Some (all !! key) \/ exists t, t ∈ ts /\ is_Some (t !! key).
Proof.
  revert all. induction ts as [| t ts IH]; intros all.
  - cbn. split; [auto |]. intros [H | (t & Ht & _)]; [exact H | inversion Ht].
  - cbn [foldl]. rewrite IH, lookup_union_is_Some. split.
    + intros [[H | H] | (t' & Ht' & H)].
      * right. exists t. split; [left | exact H].
      * left. exact H.
      * right. exists t'. split; [right; exact Ht' | exact H].
    + intros [H | (t' & Ht' & H)].
      * left. right. exact H.
      * apply elem_of_cons in Ht' as [-> | Ht'].
        -- left. left. exact H.
        -- right. exists t'. split; assumption.
Qed.

Lemma union_all_size (ts : list (gmap string string)) :
  map_disjoint_list ts ->
  forall all : gmap string string,
    Forall (fun t => t ##ₘ all) ts ->
    size (foldl (fun all t => t ∪ all) all ts)
    = (size all + foldr (fun t n => size t + n) 0 ts)%nat.
Proof.
  induction ts as [| t ts IH]; intros Hd all Hall.
  - cbn. lia.
  - apply map_disjoint_list_cons in Hd as [Hdt Hd].
    apply Forall_cons in Hall as [Ht Hall].
    cbn [foldl foldr]. rewrite IH.
    + rewrite map_size_disj_union by exact Ht. lia.
    + exact Hd.
    + apply Forall_forall. intros t' Hin.
      apply map_disjoint_union_r. split.
      * rewrite Forall_forall in Hdt. apply Hdt, Hin.
      * rewrite Forall_forall in Hall. apply Hall, Hin.
Qed.

Lemma days_of_year (y : Z) :
  foldr (fun m n => _days_in_month y m + n) 0 (seqZ 1 12) = 365 + b2z (_is_leap y).
Proof.
  change (foldr (fun m n => dim (_is_leap y) m + n) 0 (seqZ 1 12)
          = 365 + b2z (_is_leap y)).
  destruct (_is_leap y); vm_compute; reflexivity.
Qed.

End MonthTableMore.

(** X8.  A table is returned for the years 1..9999 and months 1..12 other
    than December 9999, and for no other argument: December 9999 raises
    [OverflowError], a year or a month out of range [ValueError]. *)
Theorem get_lunar_cycle_for_month_outcome (fuel : nat) (y m : Z) :
  (31 <= fuel)%nat ->
  (is_ok (get_lunar_cycle_for_month fuel y m) = true
   <-> 1 <= y <= 9999 /\ 1 <= m <= 12 /\ ~ (y = 9999 /\ m = 12))
  /\ (get_lunar_cycle_for_month fuel y m = Raise OverflowError
      <-> y = 9999 /\ m = 12)
  /\ (get_lunar_cycle_for_month fuel y m = Raise ValueError
      <-> ~ (1 <= y <= 9999 /\ 1 <= m <= 12)).
Proof.
  intros Hfuel.
  destruct (decide (1 <= y <= 9999 /\ 1 <= m <= 12)) as [[Hy Hm] | Hout].
  - destruct (decide (y = 9999 /\ m = 12)) as [[-> ->] | Hne].
    + rewrite get_lunar_cycle_for_month_last_december. cbn [is_ok].
      repeat split; intros; try discriminate; try lia; try tauto.
    + rewrite get_lunar_cycle_for_month_ok by assumption. cbn [is_ok].
      repeat split; intros; try discriminate; try lia; try tauto.
  - rewrite get_lunar_cycle_for_month_error by exact Hout. cbn [is_ok].
    repeat split; intros; try discriminate; try lia; try tauto.
Qed.

Lemma get_lunar_cycle_for_month_outcome_witness :
  (is_ok (get_lunar_cycle_for_month 31 9999 11) = true
   <-> 1 <= 9999 <= 9999 /\ 1 <= 11 <= 12 /\ ~ (9999 = 9999 /\ 11 = 12))
  /\ (get_lunar_cycle_for_month 31 9999 11 = Raise OverflowError
      <-> 9999 = 9999 /\ 11 = 12)
  /\ (get_lunar_cycle_for_month 31 9999 11 = Raise ValueError
      <-> ~ (1 <= 9999 <= 9999 /\ 1 <= 11 <= 12)).
Proof. apply (get_lunar_cycle_for_month_outcome 31 9999 11). lia. Defined.

(** X9.  Two tables returned for different months, of one year or of two,
    have no key in common: merging them overwrites nothing. *)
Theorem month_tables_share_no_key (fuel fuel' : nat) (y m y' m' : Z)
    (table table' : gmap string string) :
  (31 <= fuel)%nat -> (31 <= fuel')%nat ->
  get_lunar_cycle_for_month fuel y m = Ok table ->
  get_lunar_cycle_for_month fuel' y' m' = Ok table' ->
  (y, m) <> (y', m') ->
  table ##ₘ table' /\ table' ∪ table = table ∪ table'.
Proof.
  intros Hfuel Hfuel' H H' Hne.
  apply get_lunar_cycle_for_month_inv in H as ((Hy & Hm & _) & ->); [| exact Hfuel].
  apply get_lunar_cycle_for_month_inv in H' as ((Hy' & Hm' & _) & ->); [| exact Hfuel'].
  pose proof (month_tables_disjoint_years y m y' m' Hy Hm Hy' Hm' Hne) as Hd.
  split; [exact Hd | symmetry; apply map_union_comm, Hd].
Qed.

Lemma month_tables_share_no_key_witness :
  table_2024 12 ##ₘ table_2024 1
  /\ table_2024 1 ∪ table_2024 12 = table_2024 12 ∪ table_2024 1.
Proof.
  apply (month_tables_share_no_key 31 31 2024 12 2024 1).
  - lia.
  - lia.
  - apply table_2024_returned. vm_compute. reflexivity.
  - apply table_2024_returned. vm_compute. reflexivity.
  - discriminate.
Defined.

Section YearTable.

Lemma sizes_sum (y : Z) (months : list Z) :
  1 <= y <= 9999 -> Forall (fun m => 1 <= m <= 12) months ->
  foldr (fun (t : gmap string string) n => (size t + n)%nat) 0%nat
    ((fun m => write_days y m (seqZ 1 (_days_in_month y m)) ∅) <$> months)
  = Z.to_nat (foldr (fun m n => _days_in_month y m + n) 0 months)
  /\ 0 <= foldr (fun m n => _days_in_month y m + n) 0 months.
Proof.
  intros Hy. induction 1 as [| m months Hm Hall [IH IH0]]; [split; [reflexivity | cbn; lia] |].
  cbn [foldr fmap list_fmap].
  destruct (month_table_entries y m Hy Hm) as (Hsize & _).
  pose proof (days_in_month_bounds y m Hm).
  cbv zeta in Hsize. rewrite Hsize.
  change (list_fmap Z (gmap string string)
            (fun m => write_days y m (seqZ 1 (_days_in_month y m)) ∅) months)
    with ((fun m => write_days y m (seqZ 1 (_days_in_month y m)) ∅) <$> months).
  rewrite IH. split; lia.
Qed.

End YearTable.

(** X10.  The table of a year, merged from the tables of its twelve
    months, has exactly one entry for each day of the year: 365 entries, or
    366 in a leap year, keyed by the dates of the year and no other. *)
Theorem year_table_covers_the_year (fuel : nat) (y : Z)
    (observations : Z -> gmap string Z) (tables : Z -> gmap string string) :
  (31 <= fuel)%nat ->
  (forall m, 1 <= m <= 12 -> get_lunar_cycle_for_month fuel y m = Ok (tables m)) ->
  let all_lunar_cycle :=
    (aggregate ((fun m => (observations m, tables m)) <$> seqZ 1 12)).2 in
  size all_lunar_cycle = Z.to_nat (365 + b2z (_is_leap y))
  /\ forall key,
       is_Some (all_lunar_cycle !! key)
       <-> exists m d, 1 <= m <= 12 /\ 1 <= d <= _days_in_month y m
                       /\ key = strftime_ymd (day_at y m d).
Proof.
  intros Hfuel Htables all_lunar_cycle.
  assert (Hy : 1 <= y <= 9999).
  { specialize (Htables 1 ltac:(lia)).
    apply get_lunar_cycle_for_month_inv in Htables; [lia | exact Hfuel]. }
  assert (Hall : all_lunar_cycle
                 = foldl (fun all t => t ∪ all) ∅
                     ((fun m => write_days y m (seqZ 1 (_days_in_month y m)) ∅)
                      <$> seqZ 1 12)).
  { subst all_lunar_cycle. unfold aggregate. rewrite merged_tables.
    rewrite <- list_fmap_compose. cbn [snd]. f_equal.
    apply list_fmap_ext. intros i m Hm. cbn.
    apply list_elem_of_lookup_2, elem_of_seqZ in Hm.
    specialize (Htables m ltac:(lia)).
    apply get_lunar_cycle_for_month_inv in Htables as [_ ->]; [reflexivity | exact Hfuel]. }
  assert (Hmonths : Forall (fun m => 1 <= m <= 12) (seqZ 1 12))
    by (apply Forall_seqZ; intros; lia).
  rewrite Hall. split.
  - rewrite union_all_size.
    + destruct (sizes_sum y (seqZ 1 12) Hy Hmonths) as [-> _].
      rewrite days_of_year, map_size_empty. reflexivity.
    + apply (month_tables_disjoint_list y (seqZ 1 12) Hy (NoDup_seqZ _ _) Hmonths).
    + apply Forall_forall. intros t _. apply map_disjoint_empty_r.
  - intros key. rewrite union_all_lookup, lookup_empty. split.
    + intros [[x Hx] | (t & Ht & Hkey)]; [discriminate |].
      apply list_elem_of_fmap in Ht as (m & -> & Hm). apply elem_of_seqZ in Hm.
      destruct (month_table_entries y m Hy ltac:(lia)) as (_ & Hk & _).
      apply Hk in Hkey as (d & Hd & ->). exists m, d. repeat split; lia.
    + intros (m & d & Hm & Hd & ->). right.
      exists (write_days y m (seqZ 1 (_days_in_month y m)) ∅). split.
      * apply list_elem_of_fmap. exists m. split; [reflexivity |].
        apply elem_of_seqZ. lia.
      * destruct (month_table_entries y m Hy Hm) as (_ & Hk & _).
        apply Hk. exists d. split; [exact Hd | reflexivity].
Qed.

Lemma year_table_covers_the_year_witness :
  let all_lunar_cycle :=
    (aggregate ((fun m => (observations_2024 m, table_2024 m)) <$> seqZ 1 12)).2 in
  size all_lunar_cycle = 366%nat
  /\ forall key,
       is_Some (all_lunar_cycle !! key)
       <-> exists m d, 1 <= m <= 12 /\ 1 <= d <= _days_in_month 2024 m
                       /\ key = strftime_ymd (day_at 2024 m d).
Proof.
  apply (year_table_covers_the_year 31 2024 observations_2024 table_2024).
  - lia.
  - intros m Hm.
    assert (Hc : m = 1 \/ m = 2 \/ m = 3 \/ m = 4 \/ m = 5 \/ m = 6 \/ m = 7
                 \/ m = 8 \/ m = 9 \/ m = 10 \/ m = 11 \/ m = 12) by lia.
    repeat (destruct Hc as [-> | Hc];
            [apply table_2024_returned; vm_compute; reflexivity |]).
    subst m. apply table_2024_returned. vm_compute. reflexivity.
Defined.

(* ===================================================================== *)
(** ** Further properties of plot_observations_by_lunar_phase            *)
(* ===================================================================== *)

Section HistogramMore.

(** A bucket after the loop, for any dictionary given as the table: the
    key [phase] holds the counts of the observed dates whose value is
    [phase], unless [phase] is the empty string, which is never a key. *)
Lemma phase_counts_of_any (observations : gmap string Z)
    (lunar_cycle : gmap string string) (phase : string) :
  count_at (phase_counts_of observations lunar_cycle) phase
  = if truthy phase then sum_counts (with_phase lunar_cycle phase observations)
    else 0.
Proof.
  unfold phase_counts_of, with_phase.
  apply (map_fold_weak_ind
           (fun r m => count_at r phase
                       = if truthy phase
                         then sum_counts (filter (fun kv => lunar_cycle !! kv.1 = Some phase) m)
                         else 0)).
  - rewrite map_filter_empty, sum_counts_empty. unfold count_at.
    rewrite lookup_empty. destruct (truthy phase); reflexivity.
  - intros date count m r Hnone IH. unfold bucket_step.
    destruct (lunar_cycle !! date) as [p |] eqn:E.
    + destruct (truthy p) eqn:Hp.
      * rewrite count_at_add_count.
        destruct (decide (p = phase)) as [-> | Hne].
        -- rewrite Hp in *. rewrite map_filter_insert_True by exact E.
           rewrite sum_counts_insert
             by (apply map_lookup_filter_None; left; exact Hnone).
           lia.
        -- rewrite map_filter_insert_False by (cbn; congruence).
           rewrite delete_id by exact Hnone. exact IH.
      * destruct (decide (p = phase)) as [-> | Hne].
        -- rewrite Hp in *. exact IH.
        -- rewrite map_filter_insert_False by (cbn; congruence).
           rewrite delete_id by exact Hnone. exact IH.
    + rewrite map_filter_insert_False by (cbn; congruence).
      rewrite delete_id by exact Hnone. exact IH.
Qed.

Lemma with_phase_ext (lunar_cycle lunar_cycle' : gmap string string)
    (phase : string) (observations : gmap string Z) :
  (forall date, is_Some (observations !! date) ->
                lunar_cycle !! date = Some phase <-> lunar_cycle' !! date = Some phase) ->
  with_phase lunar_cycle phase observations
  = with_phase lunar_cycle' phase observations.
Proof.
  intros H. unfold with_phase. apply map_filter_ext.
  intros date count Hd. cbn. apply H. eauto.
Qed.

Lemma plot_ext (observations : gmap string Z)
    (lunar_cycle lunar_cycle' : gmap string string) :
  (forall date phase, is_Some (observations !! date) -> phase ∈ LUNAR_PHASES ->
       lunar_cycle !! date = Some phase <-> lunar_cycle' !! date = Some phase) ->
  plot_observations_by_lunar_phase observations lunar_cycle
  = plot_observations_by_lunar_phase observations lunar_cycle'.
Proof.
  intros H. rewrite !plot_bars. apply list_fmap_ext. intros i phase Hi.
  apply list_elem_of_lookup_2 in Hi. f_equal.
  rewrite !phase_counts_of_any.
  rewrite (with_phase_ext lunar_cycle lunar_cycle'); [reflexivity |].
  intros date Hd. apply H; assumption.
Qed.

Lemma labelled_phase_table (lunar_cycle : gmap string string) :
  phase_table (labelled lunar_cycle).
Proof.
  intros date phase H. unfold labelled in H.
  apply map_lookup_filter_Some in H as [_ H]. exact H.
Qed.

Lemma labelled_lookup (lunar_cycle : gmap string string) (date phase : string) :
  phase ∈ LUNAR_PHASES ->
  lunar_cycle !! date = Some phase <-> labelled lunar_cycle !! date = Some phase.
Proof.
  intros Hl. unfold labelled. rewrite map_lookup_filter_Some. cbn. tauto.
Qed.

End HistogramMore.

Section MergedCounts.

Lemma count_at_filter (P : string -> Prop) `{!forall k, Decision (P k)}
    (m : gmap string Z) (k : string) :
  P k -> count_at (filter (fun kv => P kv.1) m) k = count_at m k.
Proof.
  intros HP. unfold count_at. destruct (m !! k) as [c |] eqn:E.
  - rewrite (proj2 (map_lookup_filter_Some _ m k c)); [reflexivity |].
    split; [exact E | exact HP].
  - rewrite (proj2 (map_lookup_filter_None _ m k)); [reflexivity |].
    left. exact E.
Qed.

(** The counts of a phase in two dictionaries merged by lines 144 and 145
    are the counts of the phase in each, added. *)
Lemma with_phase_merged (lunar_cycle : gmap string string) (phase : string)
    (o1 o2 : gmap string Z) :
  sum_counts (with_phase lunar_cycle phase (map_fold add_count o1 o2))
  = sum_counts (with_phase lunar_cycle phase o1)
    + sum_counts (with_phase lunar_cycle phase o2).
Proof.
  unfold with_phase.
  apply (map_fold_weak_ind
           (fun r m =>
              sum_counts (filter (fun kv => lunar_cycle !! kv.1 = Some phase) r)
              = sum_counts (filter (fun kv => lunar_cycle !! kv.1 = Some phase) o1)
                + sum_counts (filter (fun kv => lunar_cycle !! kv.1 = Some phase) m))).
  - rewrite map_filter_empty, sum_counts_empty. lia.
  - intros date count m r Hnone IH. unfold add_count.
    destruct (decide (lunar_cycle !! date = Some phase)) as [Hp | Hp].
    + rewrite !map_filter_insert_True by exact Hp.
      rewrite sum_counts_insert_any.
      rewrite (sum_counts_insert (filter _ m))
        by (apply map_lookup_filter_None; left; exact Hnone).
      pose proof (count_at_filter (fun k => lunar_cycle !! k = Some phase) r date Hp)
        as Hc.
      cbv beta in Hc. rewrite Hc. unfold count_at. lia.
    + rewrite !map_filter_insert_not by (intros; exact Hp). exact IH.
Qed.

End MergedCounts.

(** X11.  Whatever dictionary is given as the table, its entries whose
    value is not one of the eight labels (the empty string or any other
    text) change nothing in the chart: the chart is the one drawn with the
    table without them, and its bars add up to the counts of the observed
    dates whose value is a label. *)
Theorem chart_ignores_other_values (observations : gmap string Z)
    (lunar_cycle : gmap string string) :
  plot_observations_by_lunar_phase observations lunar_cycle
  = plot_observations_by_lunar_phase observations (labelled lunar_cycle)
  /\ bars_total (plot_observations_by_lunar_phase observations lunar_cycle)
     = sum_counts (with_entry (labelled lunar_cycle) observations).
Proof.
  assert (H : plot_observations_by_lunar_phase observations lunar_cycle
              = plot_observations_by_lunar_phase observations (labelled lunar_cycle)).
  { apply plot_ext. intros date phase _ Hl. apply labelled_lookup, Hl. }
  split; [exact H |]. rewrite H. unfold bars_total. rewrite plot_heights.
  apply eight_buckets_total, labelled_phase_table.
Qed.

(** X12.  When no observed date has an entry in the table (no observation
    at all, an empty table, or the table of another year) every bar is
    zero. *)
Theorem chart_without_matching_dates (observations : gmap string Z)
    (lunar_cycle : gmap string string) :
  (forall date, is_Some (observations !! date) -> lunar_cycle !! date = None) ->
  plot_observations_by_lunar_phase observations lunar_cycle
  = (fun phase => (phase, 0)) <$> LUNAR_PHASES.
Proof.
  intros H. rewrite plot_bars. apply list_fmap_ext. intros i phase _. f_equal.
  rewrite phase_counts_of_any. destruct (truthy phase); [| reflexivity].
  replace (with_phase lunar_cycle phase observations) with (∅ : gmap string Z);
    [apply sum_counts_empty |].
  symmetry. apply map_empty_filter. intros date count Hd Hp. cbn in Hp.
  rewrite (H date) in Hp by eauto. discriminate.
Qed.

Lemma chart_without_matching_dates_witness :
  plot_observations_by_lunar_phase example_observations other_year_table
  = (fun phase => (phase, 0)) <$> LUNAR_PHASES.
Proof.
  apply (chart_without_matching_dates example_observations other_year_table).
  intros date [count H]. unfold example_observations in H.
  repeat (apply lookup_insert_Some in H as [[<- _] | [_ H]]; [reflexivity |]).
  apply lookup_singleton_Some in H as [<- _]. reflexivity.
Defined.

(** X13.  Bucketing the counts of two dictionaries merged as [main] merges
    them gives, for every label, the sum of the two bars: the chart of a
    year is the sum of the charts of its months drawn with the same table. *)
Theorem chart_of_merged_counts (o1 o2 : gmap string Z)
    (lunar_cycle : gmap string string) :
  plot_observations_by_lunar_phase (map_fold add_count o1 o2) lunar_cycle
  = (fun phase => (phase, count_at (phase_counts_of o1 lunar_cycle) phase
                          + count_at (phase_counts_of o2 lunar_cycle) phase))
    <$> LUNAR_PHASES.
Proof.
  rewrite plot_bars. apply list_fmap_ext. intros i phase _. f_equal.
  rewrite !phase_counts_of_any. destruct (truthy phase); [| reflexivity].
  apply with_phase_merged.
Qed.

(** X14.  The chart depends on the table only at the observed dates: two
    tables that agree on them give the same chart. *)
Theorem chart_reads_observed_dates_only (observations : gmap string Z)
    (lunar_cycle lunar_cycle' : gmap string string) :
  (forall date, is_Some (observations !! date) ->
                lunar_cycle !! date = lunar_cycle' !! date) ->
  plot_observations_by_lunar_phase observations lunar_cycle
  = plot_observations_by_lunar_phase observations lunar_cycle'.
Proof.
  intros H. apply plot_ext. intros date phase Hd _. rewrite (H date Hd). tauto.
Qed.

Lemma chart_reads_observed_dates_only_witness :
  plot_observations_by_lunar_phase example_observations example_table
  = plot_observations_by_lunar_phase example_observations example_table_changed.
Proof.
  apply (chart_reads_observed_dates_only example_observations example_table
           example_table_changed).
  intros date [count H]. unfold example_observations in H.
  repeat (apply lookup_insert_Some in H as [[<- _] | [_ H]]; [reflexivity |]).
  apply lookup_singleton_Some in H as [<- _]. reflexivity.
Defined.

(* ===================================================================== *)
(** ** main                                                              *)
(* ===================================================================== *)

Section Main.

Variable requests_get : query -> response.

Lemma is_ok_value {A : Type} (d : A) (c : outcome A) :
  is_ok c = true -> c = Ok (value_or d c).
Proof. destruct c; [reflexivity | discriminate | discriminate]. Defined.

Lemma main_loop_app (fuel : nat) (taxon year : Z) (months months' : list Z)
    (acc : gmap string Z * gmap string string) :
  main_loop requests_get fuel taxon year (months ++ months') acc
  = (acc' ← main_loop requests_get fuel taxon year months acc;
     main_loop requests_get fuel taxon year months' acc').
Proof.
  revert acc. induction months as [| m months IH]; intros acc; [reflexivity |].
  cbn [app main_loop].
  destruct (get_inaturalist_daily_observations _ _ _ _ _); try reflexivity.
  cbn [mbind outcome_bind Py.bind].
  destruct (get_taxon_name _ _); try reflexivity.
  cbn [mbind outcome_bind Py.bind].
  destruct (get_lunar_cycle_for_month _ _ _); try reflexivity.
  cbn [mbind outcome_bind Py.bind]. apply IH.
Qed.

(** When the loop returns, the fetch of every month returned. *)
Lemma main_loop_returned (fuel : nat) (taxon year : Z) (months : list Z) :
  forall acc r,
    main_loop requests_get fuel taxon year months acc = Ok r ->
    forall m, m ∈ months ->
      is_ok (get_inaturalist_daily_observations requests_get fuel taxon year m) = true.
Proof.
  induction months as [| m0 months IH]; intros acc r H m Hm; [inversion Hm |].
  cbn [main_loop] in H.
  destruct (get_inaturalist_daily_observations requests_get fuel taxon year m0)
    as [o | e |] eqn:Ho; try discriminate.
  cbn [mbind outcome_bind Py.bind] in H.
  destruct (get_taxon_name requests_get taxon); try discriminate.
  cbn [mbind outcome_bind Py.bind] in H.
  destruct (get_lunar_cycle_for_month fuel year m0); try discriminate.
  cbn [mbind outcome_bind Py.bind] in H.
  apply elem_of_cons in Hm as [-> | Hm]; [rewrite Ho; reflexivity |].
  eapply IH; eassumption.
Qed.

Lemma daily_observations_year (fuel : nat) (taxon year m : Z) :
  1 <= m <= 12 ->
  is_ok (get_inaturalist_daily_observations requests_get fuel taxon year m) = true ->
  1000 <= year <= 9999 /\ ~ (year = 9999 /\ m = 12).
Proof.
  intros Hm H. unfold get_inaturalist_daily_observations, query_range in H.
  unfold in_range in H.
  destruct (Z.leb_spec 1000 year), (Z.leb_spec year 9999); cbn [andb] in H;
    try discriminate.
  split; [lia |]. intros [-> ->]. discriminate H.
Qed.

End Main.



(** X16.  [main] draws a chart only for a year from 1000 to 9998: a year
    not written with four digits is refused when the first month's dates
    are read back, and 9999 fails at its December. *)
Theorem main_returns_only_for_four_digit_years (requests_get : query -> response)
    (fuel : nat) (taxon year : Z) (chart : list (string * Z)) :
  main requests_get fuel taxon year = Ok chart ->
  1000 <= year <= 9998.
Proof.
  intros H. unfold main in H.
  destruct (main_loop requests_get fuel taxon year (seqZ 1 12) (∅, ∅))
    as [r | e |] eqn:Hloop; try discriminate.
  pose proof (main_loop_returned requests_get fuel taxon year _ _ _ Hloop) as Hall.
  pose proof (daily_observations_year requests_get fuel taxon year 1 ltac:(lia)
                (Hall 1 ltac:(apply elem_of_seqZ; lia))) as [Hy _].
  pose proof (daily_observations_year requests_get fuel taxon year 12 ltac:(lia)
                (Hall 12 ltac:(apply elem_of_seqZ; lia))) as [_ Hne].
  lia.
Qed.

Lemma main_returns_only_for_four_digit_years_witness : 1000 <= 2024 <= 9998.
Proof.
  apply (main_returns_only_for_four_digit_years example_service 31 47219 2024
           (value_or [] (main example_service 31 47219 2024))).
  apply is_ok_value. vm_compute. reflexivity.
Defined.


